(** * The Python/JSON value bridge and the docstring patcher of
      [python/pybind11_utils.cc]

    The file embeds the three functions of the translation unit:
    - [vineyard_add_doc], which writes a docstring into the slot of an
      already built callable, descriptor or type, once;
    - [from_json], from a [json] value to a Python object;
    - [to_json], from a Python object to a [json] value.

    The C++ and CPython values are modelled as inductive types, the
    exceptions as an error type, and the one effect of [to_json] on the
    interpreter (the import of [base64]) by explicit state passing. *)

From Stdlib Require Import ZArith List String Ascii Bool Lia DecimalString.
Import ListNotations.
Local Open Scope string_scope.
Local Open Scope Z_scope.

(** ** Bytes and C strings *)

(** A [std::string], a Python [bytes] and a C buffer are sequences of
    bytes: [string], whose characters are the 256 byte values. *)
Definition byte_val (c : ascii) : Z := Z.of_N (N_of_ascii c).
Definition byte_of (z : Z) : ascii := ascii_of_N (Z.to_N z).

Fixpoint bytes_of (l : list Z) : string :=
  match l with
  | [] => EmptyString
  | z :: r => String (byte_of z) (bytes_of r)
  end.

Definition NUL : ascii := byte_of 0.

(** What a reader of a [const char*] sees of a buffer: the bytes before the
    first NUL. *)
Fixpoint c_str (s : string) : string :=
  match s with
  | EmptyString => EmptyString
  | String c r => if Ascii.eqb c NUL then EmptyString else String c (c_str r)
  end.

(** [strlen] *)
Definition strlen (s : string) : nat := String.length (c_str s).

(** [strndup(s, n)]: a fresh copy of at most [n] bytes of [s], ended at the
    first NUL if one comes before. *)
Definition strndup (s : string) (n : nat) : string :=
  c_str (String.substring 0 n s).

(** [p && p[0]] on a [const char*]: the pointer is not null and the byte it
    points to is not NUL. A buffer of no byte at all stands for the one that
    holds the final NUL only. *)
Definition nonempty_c_str (p : option string) : bool :=
  match p with
  | Some (String c _) => negb (Ascii.eqb c NUL)
  | _ => false
  end.

(** ** UTF-8, as CPython decodes and encodes it

    A Python [str] is a sequence of code points. [PyUnicode_FromStringAndSize]
    (behind [py::str(std::string)]) decodes UTF-8 strictly;
    [PyUnicode_AsUTF8AndSize] (behind [cast<std::string>]) encodes, and fails
    on a lone surrogate. *)
Definition codepoint := Z.
Definition pytext := list codepoint.

Definition utf8_encode_cp (c : codepoint) : option (list Z) :=
  if c <? 0 then None
  else if c <? 128 then Some [c]
  else if c <? 2048 then Some [192 + c / 64; 128 + c mod 64]
  else if c <? 65536 then
    if (55296 <=? c) && (c <? 57344) then None
    else Some [224 + c / 4096; 128 + (c / 64) mod 64; 128 + c mod 64]
  else if c <? 1114112 then
    Some [240 + c / 262144; 128 + (c / 4096) mod 64;
          128 + (c / 64) mod 64; 128 + c mod 64]
  else None.

Fixpoint utf8_encode (t : pytext) : option string :=
  match t with
  | [] => Some EmptyString
  | c :: r =>
      match utf8_encode_cp c, utf8_encode r with
      | Some bs, Some s => Some (bytes_of bs ++ s)
      | _, _ => None
      end
  end.

(** A continuation byte, [10xxxxxx]. *)
Definition is_cont (b : Z) : bool := (128 <=? b) && (b <? 192).

Definition cons_cp (c : codepoint) (r : option pytext) : option pytext :=
  match r with
  | Some t => Some (c :: t)
  | None => None
  end.

Fixpoint utf8_decode (s : string) : option pytext :=
  match s with
  | EmptyString => Some []
  | String c0 r0 =>
      let b0 := byte_val c0 in
      if b0 <? 128 then cons_cp b0 (utf8_decode r0)
      else if b0 <? 194 then None
      else if b0 <? 224 then
        match r0 with
        | String c1 r1 =>
            let b1 := byte_val c1 in
            if is_cont b1
            then cons_cp ((b0 - 192) * 64 + (b1 - 128)) (utf8_decode r1)
            else None
        | _ => None
        end
      else if b0 <? 240 then
        match r0 with
        | String c1 (String c2 r2) =>
            let b1 := byte_val c1 in
            let b2 := byte_val c2 in
            let cp := (b0 - 224) * 4096 + (b1 - 128) * 64 + (b2 - 128) in
            if is_cont b1 && is_cont b2 && (2048 <=? cp)
               && negb ((55296 <=? cp) && (cp <? 57344))
            then cons_cp cp (utf8_decode r2)
            else None
        | _ => None
        end
      else if b0 <? 245 then
        match r0 with
        | String c1 (String c2 (String c3 r3)) =>
            let b1 := byte_val c1 in
            let b2 := byte_val c2 in
            let b3 := byte_val c3 in
            let cp := (b0 - 240) * 262144 + (b1 - 128) * 4096
                      + (b2 - 128) * 64 + (b3 - 128) in
            if is_cont b1 && is_cont b2 && is_cont b3
               && (65536 <=? cp) && (cp <? 1114112)
            then cons_cp cp (utf8_decode r3)
            else None
        | _ => None
        end
      else None
  end.

Definition utf8_valid (s : string) : bool :=
  match utf8_decode s with
  | Some _ => true
  | None => false
  end.

(** The code points of an ASCII literal. *)
Definition text_of (s : string) : pytext :=
  map byte_val (list_ascii_of_string s).

(** A byte string of ASCII characters only. *)
Definition ascii_only (s : string) : Prop :=
  Forall (fun c => byte_val c < 128) (list_ascii_of_string s).

(** ** Base64, as Python's [base64.b64encode] (RFC 4648, with padding) *)
Definition b64_alphabet : string :=
  "ABCDEFGHIJKLMNOPQRSTUVWXYZabcdefghijklmnopqrstuvwxyz0123456789+/".

Definition b64_char (i : Z) : ascii :=
  match String.get (Z.to_nat i) b64_alphabet with
  | Some c => c
  | None => "="%char
  end.

Fixpoint b64encode (bs : string) : string :=
  match bs with
  | EmptyString => EmptyString
  | String c0 EmptyString =>
      let n := byte_val c0 * 65536 in
      String (b64_char (n / 262144))
        (String (b64_char ((n / 4096) mod 64)) "==")
  | String c0 (String c1 EmptyString) =>
      let n := byte_val c0 * 65536 + byte_val c1 * 256 in
      String (b64_char (n / 262144))
        (String (b64_char ((n / 4096) mod 64))
           (String (b64_char ((n / 64) mod 64)) "="))
  | String c0 (String c1 (String c2 r)) =>
      let n := byte_val c0 * 65536 + byte_val c1 * 256 + byte_val c2 in
      String (b64_char (n / 262144))
        (String (b64_char ((n / 4096) mod 64))
           (String (b64_char ((n / 64) mod 64))
              (String (b64_char (n mod 64)) (b64encode r))))
  end.

(** ** Results and exceptions *)

(** The exceptions the three functions raise, by the kind the
    specification gives them, and the two that come out of the runtime
    itself; the payload is what the message carries. *)
Inductive error : Type :=
| InvalidText
    (* RuntimeError: error unpacking string as utf-8 *)
| AlreadyDocumented (what : string) (name : option string)
    (* RuntimeError: <what> '<name>' already has a docstring *)
| AttributeNotSettable
    (* TypeError: Cannot set a docstring for that object *)
| IntegerOutOfRange (msg : string)
    (* std::runtime_error, the message ends with repr(obj) *)
| UnsupportedType (msg : string)
    (* std::runtime_error, the message ends with repr(obj) *)
| CastError
    (* pybind11's cast_error, when a str has no UTF-8 form *)
| ConstructionFailed
    (* the runtime did not build the object asked for *)
| ValueError
    (* error_already_set, ValueError: Exceeds the limit for integer string
       conversion *)
| SystemError
    (* SystemError: the function returned a result with an exception set *).

Inductive result (A : Type) : Type :=
| OK (a : A)
| Err (e : error).
Arguments OK {A} a.
Arguments Err {A} e.

Definition rbind {A B} (r : result A) (k : A -> result B) : result B :=
  match r with
  | OK a => k a
  | Err e => Err e
  end.

(** [for (x : l) { acc = body(acc, x); }], left when [body] throws. *)
Definition for_each {A Acc} (body : Acc -> A -> result Acc)
  : list A -> Acc -> result Acc :=
  fix loop (l : list A) (acc : Acc) : result Acc :=
    match l with
    | [] => OK acc
    | x :: r => rbind (body acc x) (loop r)
    end.

(** ** The structured value: [json]

    The numbers are kept as [Z]; an [int64_t] holds [-2^63 .. 2^63-1] and a
    [uint64_t] holds [0 .. 2^64-1] ([json_wf] below). A [double] is carried
    by its 64 bits: neither direction looks inside one. *)
Definition double := Z.

Unset Elimination Schemes.
Inductive json : Type :=
| JNull
| JBool (b : bool)
| JInt64 (z : Z)
| JUInt64 (u : Z)
| JFloat64 (d : double)
| JString (s : string)
| JArray (elems : list json)
| JObject (fields : list (string * json)).
Set Elimination Schemes.

Definition int64_min : Z := - 2 ^ 63.
Definition int64_max : Z := 2 ^ 63 - 1.
Definition uint64_max : Z := 2 ^ 64 - 1.

Definition in_int64 (z : Z) : bool := (int64_min <=? z) && (z <=? int64_max).
Definition in_uint64 (z : Z) : bool := (0 <=? z) && (z <=? uint64_max).

(** [static_cast<int64_t>] of an integer: the value modulo [2^64], read as
    two's complement. *)
Definition to_int64 (z : Z) : Z := (z + 2 ^ 63) mod 2 ^ 64 - 2 ^ 63.

(** [static_cast<uint64_t>] *)
Definition to_uint64 (z : Z) : Z := z mod 2 ^ 64.

(** The type tests of [nlohmann::json]. [is_number_integer] holds of the
    signed and of the unsigned integers; [is_number_unsigned] of the unsigned
    ones only. *)
Definition is_null (j : json) : bool :=
  match j with JNull => true | _ => false end.
Definition is_boolean (j : json) : bool :=
  match j with JBool _ => true | _ => false end.
Definition is_number_integer (j : json) : bool :=
  match j with JInt64 _ | JUInt64 _ => true | _ => false end.
Definition is_number_unsigned (j : json) : bool :=
  match j with JUInt64 _ => true | _ => false end.
Definition is_number_float (j : json) : bool :=
  match j with JFloat64 _ => true | _ => false end.
Definition is_string (j : json) : bool :=
  match j with JString _ => true | _ => false end.
Definition is_array (j : json) : bool :=
  match j with JArray _ => true | _ => false end.

(** [j.get<bool>()] *)
Definition get_bool (j : json) : bool :=
  match j with JBool b => b | _ => false end.

(** [j.get<json::number_integer_t>()]: the stored number, cast to
    [int64_t]. *)
Definition get_number_integer (j : json) : Z :=
  match j with
  | JInt64 z => z
  | JUInt64 u => to_int64 u
  | _ => 0
  end.

(** [j.get<json::number_unsigned_t>()] *)
Definition get_number_unsigned (j : json) : Z :=
  match j with
  | JInt64 z => to_uint64 z
  | JUInt64 u => u
  | _ => 0
  end.

(** [j.get<double>()] *)
Definition get_double (j : json) : double :=
  match j with JFloat64 d => d | _ => 0 end.

(** [j.get<std::string>()] *)
Definition get_string (j : json) : string :=
  match j with JString s => s | _ => EmptyString end.

(** Modelled from the spec: the object container of [json] is declared in
    [common/util/json.h], which is not part of the sources at hand. The
    specification gives it as a mapping from String to structured value that
    keeps insertion order; [out[key] = value] replaces the value of a key
    that is present, in place, and adds a new key at the end. *)
Fixpoint object_set (key : string) (value : json)
    (fields : list (string * json)) : list (string * json) :=
  match fields with
  | [] => [(key, value)]
  | (k, v) :: r =>
      if String.eqb k key then (k, value) :: r
      else (k, v) :: object_set key value r
  end.

(** [out.push_back(value)] *)
Definition push_back {A} (out : list A) (value : A) : list A := out ++ [value].

(** ** The runtime value: a Python object *)
Unset Elimination Schemes.
Inductive pyobj : Type :=
| PyNone
| PyBool (b : bool)
| PyInt (z : Z)                          (* arbitrary precision *)
| PyFloat (d : double)
| PyBytes (bs : string)
| PyStr (t : pytext)
| PyTuple (items : list pyobj)
| PyList (items : list pyobj)
| PyDict (items : list (pyobj * pyobj))  (* in insertion order *)
| PyOther (tp_name : string).            (* an object of any other type *)
Set Elimination Schemes.

(** The type tests of pybind11, in CPython's terms. [bool] is a subclass
    of [int], so [PyLong_Check] holds of [True] and [False]. *)
Definition is_none (o : pyobj) : bool :=
  match o with PyNone => true | _ => false end.
Definition isinstance_bool (o : pyobj) : bool :=          (* PyBool_Check *)
  match o with PyBool _ => true | _ => false end.
Definition isinstance_int (o : pyobj) : bool :=           (* PyLong_Check *)
  match o with PyInt _ | PyBool _ => true | _ => false end.
Definition isinstance_float (o : pyobj) : bool :=         (* PyFloat_Check *)
  match o with PyFloat _ => true | _ => false end.
Definition isinstance_bytes (o : pyobj) : bool :=         (* PyBytes_Check *)
  match o with PyBytes _ => true | _ => false end.
Definition isinstance_str (o : pyobj) : bool :=           (* PyUnicode_Check *)
  match o with PyStr _ => true | _ => false end.
Definition isinstance_tuple (o : pyobj) : bool :=         (* PyTuple_Check *)
  match o with PyTuple _ => true | _ => false end.
Definition isinstance_list (o : pyobj) : bool :=          (* PyList_Check *)
  match o with PyList _ => true | _ => false end.
Definition isinstance_dict (o : pyobj) : bool :=          (* PyDict_Check *)
  match o with PyDict _ => true | _ => false end.

(** The value of an [int] object (of [True] and [False]: 1 and 0). *)
Definition int_value (o : pyobj) : option Z :=
  match o with
  | PyInt z => Some z
  | PyBool b => Some (Z.b2z b)
  | _ => None
  end.

(** [obj.cast<bool>()] *)
Definition cast_bool (o : pyobj) : bool :=
  match o with PyBool b => b | _ => false end.

(** [obj.cast<int64_t>()]: pybind11 reads the integer with
    [PyLong_AsLongLong] and throws when it overflows. [None] is the throw. *)
Definition cast_int64 (o : pyobj) : option Z :=
  match int_value o with
  | Some z => if in_int64 z then Some z else None
  | None => None
  end.

(** [obj.cast<uint64_t>()], with [PyLong_AsUnsignedLongLong]. *)
Definition cast_uint64 (o : pyobj) : option Z :=
  match int_value o with
  | Some z => if in_uint64 z then Some z else None
  | None => None
  end.

(** [py::int_(n).equal(obj)]: Python's [==] between an integer built
    from the C++ number and the object. *)
Definition int_equal (n : Z) (o : pyobj) : bool :=
  match int_value o with
  | Some z => n =? z
  | None => false
  end.

(** [obj.cast<double>()] *)
Definition cast_double (o : pyobj) : double :=
  match o with PyFloat d => d | _ => 0 end.

(** [PyUnicode_AsUTF8AndSize(o, &len)]: the UTF-8 form of a [str], or the
    null pointer. *)
Definition as_utf8 (o : pyobj) : option string :=
  match o with
  | PyStr t => utf8_encode t
  | _ => None
  end.

(** [obj.cast<std::string>()]: the UTF-8 form of a [str], the bytes of a
    [bytes]; pybind11 throws on anything else. *)
Definition cast_string (o : pyobj) : result string :=
  match o with
  | PyBytes bs => OK bs
  | _ =>
      match as_utf8 o with
      | Some s => OK s
      | None => Err CastError
      end
  end.

(** [py::str(s)] of a [std::string]: the text that [s] encodes. *)
Definition py_str_of_string (s : string) : result pyobj :=
  match utf8_decode s with
  | Some t => OK (PyStr t)
  | None => Err ConstructionFailed
  end.

(** [d[key] = value] on a [dict] whose new key is a [str]: the value of an
    equal key is replaced in place, a new key goes last. A [str] equals
    no object of another type. *)
Fixpoint dict_set_str (key : pytext) (value : pyobj)
    (items : list (pyobj * pyobj)) : list (pyobj * pyobj) :=
  match items with
  | [] => [(PyStr key, value)]
  | (PyStr k, v) :: r =>
      if list_eq_dec Z.eq_dec k key then (PyStr k, value) :: r
      else (PyStr k, v) :: dict_set_str key value r
  | kv :: r => kv :: dict_set_str key value r
  end.

(** The decimal numeral of an integer: what [repr] and [str] of an [int]
    give, when they give a text. *)
Definition decimal (z : Z) : string := NilZero.string_of_int (Z.to_int z).

(** The number of digits of the numeral, the sign apart. *)
Definition decimal_digits (z : Z) : Z :=
  Z.of_nat (String.length (decimal (Z.abs z))).

(** [py::str(s)] as a text, for a key. *)
Definition decode_text (s : string) : result pytext :=
  match utf8_decode s with
  | Some t => OK t
  | None => Err ConstructionFailed
  end.

(** ** [vineyard_add_doc]

    The objects it patches, by the type the source tests for. Each of the
    first five holds its docstring as a [const char*] ([None] is the null
    pointer). Of any other object the function sees what
    [PyObject_GetAttrString(obj, "__doc__")] gives ([doc_attr]: [None] is the
    null pointer of a lookup that raised [AttributeError]) and whether
    [PyObject_SetAttrString] takes the assignment or refuses. *)
Record PyMethodDef : Type := { ml_name : string; ml_doc : option string }.
Record PyGetSetDef : Type := { gs_name : string; gs_doc : option string }.
Record PyTypeObject : Type := { tp_name : string; tp_doc : option string }.
Record PyObject : Type := { doc_attr : option pyobj; doc_settable : bool }.

Inductive target : Type :=
| CFunction (m_ml : PyMethodDef)          (* &PyCFunction_Type *)
| InstanceMethod (m_ml : PyMethodDef)     (* &PyInstanceMethod_Type *)
| MethodDescriptor (d_method : PyMethodDef)  (* "method_descriptor" *)
| GetSetDescriptor (d_getset : PyGetSetDef)  (* "getset_descriptor" *)
| TypeObject (t : PyTypeObject)           (* &PyType_Type *)
| Object (o : PyObject).                  (* the [else] branch *)

Definition invalid_string : string := "<invalid string>".

(** [PyBytes_AS_STRING] and [PyBytes_GET_SIZE] *)
Definition bytes_buffer (o : pyobj) : string :=
  match o with PyBytes bs => bs | _ => EmptyString end.

(** The first part of the function: [doc_str] and [doc_len]. *)
Definition doc_buffer (doc_obj : pyobj) : result (string * nat) :=
  let d := (invalid_string, strlen invalid_string) in
  let d := if isinstance_bytes doc_obj
           then (bytes_buffer doc_obj, String.length (bytes_buffer doc_obj))
           else d in
  if isinstance_str doc_obj then
    match as_utf8 doc_obj with
    | Some s => OK (s, String.length s)
    | None => Err InvalidText
    end
  else OK d.

(** The test of the [else] branch on what [__doc__] gives. *)
Definition has_docstring (attr : option pyobj) : bool :=
  match attr with
  | Some (PyBytes (String _ _)) => true
  | Some (PyStr (_ :: _)) => true
  | _ => false
  end.

Definition set_ml_doc (m : PyMethodDef) (d : string) : PyMethodDef :=
  {| ml_name := ml_name m; ml_doc := Some d |}.

(** The function, once [PyArg_ParseTuple] has taken the two arguments out
    of the tuple: the result and the object as the call leaves it.

    In the [else] branch a lookup of [__doc__] that fails leaves its
    [AttributeError] set, and nothing clears it. When the assignment then
    fails, [PyErr_Format] puts the [TypeError] in its place; when it
    succeeds, the function returns [None] with the error still set, which the
    interpreter turns into a [SystemError], the attribute written. *)
Definition vineyard_add_doc (obj : target) (doc_obj : pyobj)
  : result unit * target :=
  match doc_buffer doc_obj with
  | Err e => (Err e, obj)
  | OK (doc_str, doc_len) =>
      match obj with
      | CFunction m =>
          if nonempty_c_str (ml_doc m)
          then (Err (AlreadyDocumented "function" (Some (ml_name m))), obj)
          else (OK tt, CFunction (set_ml_doc m (strndup doc_str doc_len)))
      | InstanceMethod m =>
          if nonempty_c_str (ml_doc m)
          then (Err (AlreadyDocumented "function" (Some (ml_name m))), obj)
          else (OK tt, InstanceMethod (set_ml_doc m (strndup doc_str doc_len)))
      | MethodDescriptor m =>
          if nonempty_c_str (ml_doc m)
          then (Err (AlreadyDocumented "method" (Some (ml_name m))), obj)
          else (OK tt, MethodDescriptor (set_ml_doc m (strndup doc_str doc_len)))
      | GetSetDescriptor g =>
          if nonempty_c_str (gs_doc g)
          then (Err (AlreadyDocumented "attribute" (Some (gs_name g))), obj)
          else (OK tt, GetSetDescriptor
                         {| gs_name := gs_name g;
                            gs_doc := Some (strndup doc_str doc_len) |})
      | TypeObject t =>
          if nonempty_c_str (tp_doc t)
          then (Err (AlreadyDocumented "Type" (Some (tp_name t))), obj)
          else (OK tt, TypeObject
                         {| tp_name := tp_name t;
                            tp_doc := Some (strndup doc_str doc_len) |})
      | Object o =>
          if has_docstring (doc_attr o)
          then (Err (AlreadyDocumented "Object" None), obj)
          else if doc_settable o
          then
            let obj' := Object {| doc_attr := Some doc_obj;
                                  doc_settable := doc_settable o |} in
            match doc_attr o with
            | Some _ => (OK tt, obj')
            | None => (Err SystemError, obj')
            end
          else (Err AttributeNotSettable, obj)
      end
  end.

(** A run of calls on one object, each on the object as the one before
    left it. *)
Fixpoint add_docs (obj : target) (docs : list pyobj)
  : list (result unit) * target :=
  match docs with
  | [] => ([], obj)
  | d :: r =>
      let (res, obj') := vineyard_add_doc obj d in
      let (rs, obj'') := add_docs obj' r in
      (res :: rs, obj'')
  end.

(** ** [from_json]

    The chain of type tests is the source's; the two loops fill a fresh
    [list] and a fresh [dict]. In [obj[py::str(it.key())] = from_json(it.value())]
    the right-hand side is evaluated first, as C++17 orders an assignment. *)
Fixpoint from_json (j : json) : result pyobj :=
  if is_null j then OK PyNone
  else if is_boolean j then OK (PyBool (get_bool j))
  else if is_number_integer j then OK (PyInt (get_number_integer j))
  else if is_number_unsigned j then OK (PyInt (get_number_unsigned j))
  else if is_number_float j then OK (PyFloat (get_double j))
  else if is_string j then py_str_of_string (get_string j)
  else if is_array j then
    match j with
    | JArray elems =>
        rbind (for_each
                 (fun obj el =>
                    rbind (from_json el) (fun x => OK (push_back obj x)))
                 elems [])
              (fun obj => OK (PyList obj))
    | _ => OK (PyList [])
    end
  else
    match j with
    | JObject fields =>
        rbind (for_each
                 (fun obj kv =>
                    rbind (from_json (snd kv)) (fun value =>
                    rbind (decode_text (fst kv)) (fun key =>
                    OK (dict_set_str key value obj))))
                 fields [])
              (fun obj => OK (PyDict obj))
    | _ => OK (PyDict [])
    end.

(** ** The interpreter state that [to_json] can touch

    [py::module::import] registers the module in [sys.modules] the first
    time it is asked for, and after it the modules that its code imports in
    turn. Nothing else in [to_json] writes to the runtime. *)
Record interp : Type := { sys_modules : list string }.

(** The modules of [new] that [mods] does not hold yet are added at its
    end, each once. *)
Definition register (new mods : list string) : list string :=
  fold_left
    (fun acc m => if existsb (String.eqb m) acc then acc else (acc ++ [m])%list)
    new mods.

Definition M (A : Type) : Type := interp -> result A * interp.

Definition ret {A} (a : A) : M A := fun st => (OK a, st).
Definition throw {A} (e : error) : M A := fun st => (Err e, st).
Definition bind {A B} (m : M A) (k : A -> M B) : M B :=
  fun st =>
    match m st with
    | (OK a, st') => k a st'
    | (Err e, st') => (Err e, st')
    end.
Definition lift {A} (r : result A) : M A := fun st => (r, st).

Notation "x <- m ;; k" := (bind m (fun x => k))
  (at level 61, m at next level, right associativity).
Notation "m ;;; k" := (bind m (fun _ => k))
  (at level 61, right associativity).

(** The loop of [for_each], in [M]. *)
Definition for_eachM {A Acc} (body : Acc -> A -> M Acc)
  : list A -> Acc -> M Acc :=
  fix loop (l : list A) (acc : Acc) : M Acc :=
    match l with
    | [] => ret acc
    | x :: r => acc' <- body acc x ;; loop r acc'
    end.

(** One [try] block of the integer branch, for a cast that gives a number
    or throws ([None]): the number cast is built back into an [int] and
    compared with the object, and the block returns it only if the two are
    equal; [catch (...)] goes on after a throw. *)
Definition try_cast (cast : pyobj -> option Z) (o : pyobj) : option Z :=
  match cast o with
  | Some n => if int_equal n o then Some n else None
  | None => None
  end.

Definition try_int64 : pyobj -> option Z := try_cast cast_int64.
Definition try_uint64 : pyobj -> option Z := try_cast cast_uint64.

Definition out_of_range_msg : string :=
  "to_json received an integer out of range for both json::number_integer_t and json::number_unsigned_t type: ".
Definition not_implemented_msg : string :=
  "to_json not implemented for this type of object: ".

(** ** The vocabulary of the properties *)

Fixpoint nodupb (l : list string) : bool :=
  match l with
  | [] => true
  | x :: r => negb (existsb (String.eqb x) r) && nodupb r
  end.

(** What the C++ types and the data model hold of a structured value, and
    [Z] and [list] do not: an [Int64] is an [int64_t], a [UInt64] a
    [uint64_t], an object has each key once, and a String and a key are
    texts, in UTF-8. *)
Fixpoint json_wf (j : json) : bool :=
  match j with
  | JInt64 z => in_int64 z
  | JUInt64 u => in_uint64 u
  | JString s => utf8_valid s
  | JArray elems => forallb json_wf elems
  | JObject fields =>
      nodupb (map fst fields)
      && forallb (fun kv => utf8_valid (fst kv) && json_wf (snd kv)) fields
  | _ => true
  end.

(** Built without the [UInt64] constructor. *)
Fixpoint signed_only (j : json) : bool :=
  match j with
  | JUInt64 _ => false
  | JArray elems => forallb signed_only elems
  | JObject fields => forallb (fun kv => signed_only (snd kv)) fields
  | _ => true
  end.


(** A payload that is a text: a [bytes], or a [str] that has a UTF-8 form. *)
Definition interpretable_as_text (doc : pyobj) : bool :=
  match doc with
  | PyBytes _ => true
  | PyStr t => match utf8_encode t with Some _ => true | None => false end
  | _ => false
  end.

(** One of the five kinds the function knows by type. *)
Definition known_kind (obj : target) : bool :=
  match obj with
  | Object _ => false
  | _ => true
  end.

(** A documentable target: one of the five kinds, or an object that takes
    an assignment to [__doc__]. *)
Definition documentable (obj : target) : bool :=
  match obj with
  | Object o => doc_settable o
  | _ => true
  end.

(** The text in the documentation slot, if there is one. *)
Definition doc_text (obj : target) : option string :=
  match obj with
  | CFunction m | InstanceMethod m | MethodDescriptor m => ml_doc m
  | GetSetDescriptor g => gs_doc g
  | TypeObject t => tp_doc t
  | Object o =>
      match doc_attr o with
      | Some (PyBytes bs) => Some bs
      | Some (PyStr t) => utf8_encode t
      | _ => None
      end
  end.

(** The slot is empty: absent, or the empty string. *)
Definition slot_empty (obj : target) : bool :=
  match obj with
  | Object o =>
      match doc_attr o with
      | None | Some PyNone | Some (PyBytes EmptyString) | Some (PyStr []) => true
      | _ => false
      end
  | _ =>
      match doc_text obj with
      | None | Some EmptyString => true
      | _ => false
      end
  end.

(** The payload is the text [s], as a [bytes] or as a [str]. *)
Definition payload_of (s : string) (doc : pyobj) : Prop :=
  doc = PyBytes s \/ (isinstance_str doc = true /\ as_utf8 doc = Some s).

(** The keys of a [dict] are the texts [ts], in order. *)
Definition str_keyed (items : list (pyobj * pyobj)) (ts : list pytext) : Prop :=
  map fst items = map PyStr ts.

(** A runtime to run the functions on: every object prints the same, the
    digit limit is CPython's default, and the import of [base64] brings in
    the three modules it imports itself. *)
Definition sample_repr (o : pyobj) : string := "<object>".
Definition sample_str (o : pyobj) : result string := OK "<object>".
Definition sample_digits : Z := 4300.
Definition sample_deps (name : string) : list string :=
  if String.eqb name "base64" then ["re"; "struct"; "binascii"] else [].
Definition st0 : interp := {| sys_modules := [] |}.

(** A structured value and a function without a docstring, to try the
    properties on. *)
Definition sample_value : json :=
  JObject [("name", JString "vineyard");
           ("shape", JArray [JInt64 3; JInt64 (-4); JFloat64 0]);
           ("meta", JObject [("transient", JBool true); ("extra", JNull)])].

Definition fresh_function : target :=
  CFunction {| ml_name := "connect"; ml_doc := None |}.

(** An object of none of the five kinds, on which the lookup of [__doc__]
    raises [AttributeError] and the assignment to it is taken. *)
Definition attribute_less : target :=
  Object {| doc_attr := None; doc_settable := true |}.

(** ** The vocabulary of the further properties *)

(** A Unicode scalar value: a code point that is no surrogate. *)
Definition scalar_value (c : codepoint) : bool :=
  (0 <=? c) && (c <? 1114112) && negb ((55296 <=? c) && (c <? 57344)).

(** A text that has a UTF-8 form: scalar values only. *)
Definition encodable_text (t : pytext) : bool := forallb scalar_value t.

(** Every String and every key of the value is a text in UTF-8. *)
Fixpoint json_texts_ok (j : json) : bool :=
  match j with
  | JString s => utf8_valid s
  | JArray elems => forallb json_texts_ok elems
  | JObject fields =>
      forallb (fun kv => utf8_valid (fst kv) && json_texts_ok (snd kv)) fields
  | _ => true
  end.

(** The value with every unsigned number read as the signed number of the
    same 64 bits. *)
Fixpoint as_signed (j : json) : json :=
  match j with
  | JUInt64 u => JInt64 (to_int64 u)
  | JArray elems => JArray (map as_signed elems)
  | JObject fields => JObject (map (fun kv => (fst kv, as_signed (snd kv))) fields)
  | _ => j
  end.

(** What is left of an object after [to_json] and [from_json]: a [tuple]
    is a [list], a [bytes] is the text of its base64 form, an integer is the
    signed number of its 64 bits. *)
Fixpoint decoded_form (o : pyobj) : pyobj :=
  match o with
  | PyInt z => PyInt (to_int64 z)
  | PyBytes bs => PyStr (text_of (b64encode bs))
  | PyTuple items | PyList items => PyList (map decoded_form items)
  | PyDict items => PyDict (map (fun kv => (fst kv, decoded_form (snd kv))) items)
  | _ => o
  end.

(** The text of a key that is a [str]. *)
Definition key_text (k : pyobj) : pytext :=
  match k with PyStr t => t | _ => [] end.

Fixpoint distinct_texts (l : list pytext) : bool :=
  match l with
  | [] => true
  | t :: r =>
      negb (existsb (fun t' => if list_eq_dec Z.eq_dec t t' then true else false) r)
      && distinct_texts r
  end.

(** Every [dict] of the object, at any depth, has [str] keys only, no two
    of them equal. *)
Fixpoint text_keyed (o : pyobj) : bool :=
  match o with
  | PyTuple items | PyList items => forallb text_keyed items
  | PyDict items =>
      forallb (fun kv => isinstance_str (fst kv) && text_keyed (snd kv)) items
      && distinct_texts (map (fun kv => key_text (fst kv)) items)
  | _ => true
  end.

(** [j[key]] on an object's fields. *)
Fixpoint object_get (key : string) (fields : list (string * json)) : option json :=
  match fields with
  | [] => None
  | (k, v) :: r => if String.eqb k key then Some v else object_get key r
  end.

(** The test [vineyard_add_doc] makes of a target before it writes: the
    slot holds a docstring that is not empty. *)
Definition documented (obj : target) : bool :=
  match obj with
  | CFunction m | InstanceMethod m | MethodDescriptor m => nonempty_c_str (ml_doc m)
  | GetSetDescriptor g => nonempty_c_str (gs_doc g)
  | TypeObject t => nonempty_c_str (tp_doc t)
  | Object o => has_docstring (doc_attr o)
  end.

(** The target with its documentation slot cleared: its kind, its name and
    whether it takes an assignment to [__doc__]. *)
Definition without_doc (obj : target) : target :=
  match obj with
  | CFunction m => CFunction {| ml_name := ml_name m; ml_doc := None |}
  | InstanceMethod m => InstanceMethod {| ml_name := ml_name m; ml_doc := None |}
  | MethodDescriptor m => MethodDescriptor {| ml_name := ml_name m; ml_doc := None |}
  | GetSetDescriptor g => GetSetDescriptor {| gs_name := gs_name g; gs_doc := None |}
  | TypeObject t => TypeObject {| tp_name := tp_name t; tp_doc := None |}
  | Object o => Object {| doc_attr := None; doc_settable := doc_settable o |}
  end.

(** A payload that is a [str] with no UTF-8 form. *)
Definition unencodable_text (doc : pyobj) : bool :=
  isinstance_str doc && match as_utf8 doc with Some _ => false | None => true end.

(** The object is of none of the five kinds, and the lookup of its
    [__doc__] raises. *)
Definition missing_attribute (obj : target) : bool :=
  match obj with
  | Object o => match doc_attr o with None => true | Some _ => false end
  | _ => false
  end.

(** The error that a documented target answers a text with. *)
Definition already_documented (obj : target) : error :=
  match obj with
  | CFunction m | InstanceMethod m =>
      AlreadyDocumented "function" (Some (ml_name m))
  | MethodDescriptor m => AlreadyDocumented "method" (Some (ml_name m))
  | GetSetDescriptor g => AlreadyDocumented "attribute" (Some (gs_name g))
  | TypeObject t => AlreadyDocumented "Type" (Some (tp_name t))
  | Object _ => AlreadyDocumented "Object" None
  end.

(** ** Tactics *)

Ltac zbool :=
  repeat match goal with
  | H : (_ && _)%bool = true |- _ => apply andb_prop in H; destruct H
  | H : negb _ = true |- _ => apply negb_true_iff in H
  | H : (_ <? _) = true |- _ => apply Z.ltb_lt in H
  | H : (_ <? _) = false |- _ => apply Z.ltb_ge in H
  | H : (_ <=? _) = true |- _ => apply Z.leb_le in H
  | H : (_ <=? _) = false |- _ => apply Z.leb_gt in H
  end.

(** Decides the comparisons of a goal, one after the other. *)
Ltac split_ltb :=
  repeat match goal with
  | |- context [?a <? ?b] => destruct (Z.ltb_spec a b); try lia
  | |- context [?a <=? ?b] => destruct (Z.leb_spec a b); try lia
  end.

Local Open Scope list_scope.

Section Runtime.

(** What the runtime prints, in UTF-8, of the objects whose text is not
    spelled out here (floats, bytes, texts, containers, objects of other
    types): [repr(o)], for the message of an error, which the objects of the
    model give without raising, and [str(o)] of a key, which may raise. *)
Variable repr_rt : pyobj -> string.
Variable str_rt : pyobj -> result string.

(** [sys.get_int_max_str_digits()]: the longest numeral that the
    interpreter prints, 4300 digits unless set otherwise, 0 for no limit. A
    numeral of at most 640 digits is printed whatever the limit. *)
Variable int_max_str_digits : Z.

(** The modules that the code of a module imports when it is run, its
    own imports and theirs, in the order they are asked for. *)
Variable module_deps : string -> list string.

(** [py::module::import(name)]: a module that [sys.modules] holds is
    returned as it is; any other is registered and run. *)
Definition import_module (name : string) : M unit :=
  fun st =>
    if existsb (String.eqb name) (sys_modules st) then (OK tt, st)
    else (OK tt, {| sys_modules :=
                      register (name :: module_deps name) (sys_modules st) |}).

Definition digit_limit_exceeded (z : Z) : bool :=
  (0 <? int_max_str_digits)
  && (Z.max 640 int_max_str_digits <? decimal_digits z).

(** [repr] and [str] of an [int]: the numeral, or [ValueError] beyond the
    digit limit. *)
Definition int_to_decimal (z : Z) : result string :=
  if digit_limit_exceeded z then Err ValueError else OK (decimal z).

(** [py::repr(obj).cast<std::string>()] *)
Definition py_repr (o : pyobj) : result string :=
  match o with
  | PyNone => OK "None"
  | PyBool true => OK "True"
  | PyBool false => OK "False"
  | PyInt z => int_to_decimal z
  | _ => OK (repr_rt o)
  end.

(** [py::str(key).cast<std::string>()] *)
Definition py_str (key : pyobj) : result string :=
  match key with
  | PyStr _ => cast_string key
  | PyNone => OK "None"
  | PyBool true => OK "True"
  | PyBool false => OK "False"
  | PyInt z => int_to_decimal z
  | _ => str_rt key
  end.

(** [base64.b64encode(obj)] *)
Definition base64_b64encode (o : pyobj) : pyobj :=
  match o with
  | PyBytes bs => PyBytes (b64encode bs)
  | _ => PyBytes EmptyString
  end.

(** [b.decode("utf-8")] on a [bytes] *)
Definition bytes_decode (o : pyobj) : result pyobj :=
  match o with
  | PyBytes bs => py_str_of_string bs
  | _ => Err ConstructionFailed
  end.

(** ** [to_json]

    The tests are made in the source's order, each on the object as a
    whole. In [out[...] = to_json(obj[key])] the right-hand side is evaluated
    first, as C++17 orders an assignment; [obj[key]] is the value the [dict]
    holds for the key at hand. A null handle, which the first test also
    takes, is not an object and has no constructor here. *)
Fixpoint to_json (obj : pyobj) : M json :=
  if is_none obj then ret JNull
  else if isinstance_bool obj then ret (JBool (cast_bool obj))
  else if isinstance_int obj then
    match try_int64 obj with
    | Some s => ret (JInt64 s)
    | None =>
        match try_uint64 obj with
        | Some u => ret (JUInt64 u)
        | None =>
            r <- lift (py_repr obj) ;;
            throw (IntegerOutOfRange (out_of_range_msg ++ r))
        end
    end
  else if isinstance_float obj then ret (JFloat64 (cast_double obj))
  else if isinstance_bytes obj then
    import_module "base64" ;;;
    text <- lift (bytes_decode (base64_b64encode obj)) ;;
    s <- lift (cast_string text) ;;
    ret (JString s)
  else if isinstance_str obj then
    s <- lift (cast_string obj) ;; ret (JString s)
  else if isinstance_tuple obj || isinstance_list obj then
    match obj with
    | PyTuple items | PyList items =>
        out <- for_eachM
                 (fun out value => j <- to_json value ;; ret (push_back out j))
                 items [] ;;
        ret (JArray out)
    | _ => ret (JArray [])
    end
  else if isinstance_dict obj then
    match obj with
    | PyDict items =>
        out <- for_eachM
                 (fun out kv =>
                    j <- to_json (snd kv) ;;
                    key <- lift (py_str (fst kv)) ;;
                    ret (object_set key j out))
                 items [] ;;
        ret (JObject out)
    | _ => ret (JObject [])
    end
  else
    r <- lift (py_repr obj) ;;
    throw (UnsupportedType (not_implemented_msg ++ r)).

(** What the round trip says of one structured value and the object it
    decodes to. *)
Definition round_trips (v : json) (o : pyobj) : Prop :=
  from_json v = OK o /\ forall st, to_json o st = (OK v, st).

(** One field of an object and the item of the [dict] it becomes. *)
Definition field_item (kv : string * json) (item : pyobj * pyobj) : Prop :=
  exists t, utf8_decode (fst kv) = Some t /\ fst item = PyStr t
            /\ round_trips (snd kv) (snd item).

(** An item of a mapping whose value [to_json] takes and whose key has a
    text. *)
Definition encodable_item (kv : pyobj * pyobj) : Prop :=
  (forall st, exists j st', to_json (snd kv) st = (OK j, st'))
  /\ exists k, py_str (fst kv) = OK k.

(** The result of [to_json] on an object, read off a run from the empty
    interpreter state. *)
Definition encoding (o : pyobj) : result json := fst (to_json o st0).

(** A key that has a text: [str(key)] does not raise, and the text has a
    UTF-8 form. *)
Definition key_has_text (k : pyobj) : bool :=
  match py_str k with
  | OK _ => true
  | Err _ => false
  end.

(** The objects [to_json] takes, by their shape. *)
Fixpoint encodable (o : pyobj) : bool :=
  match o with
  | PyNone | PyBool _ | PyFloat _ | PyBytes _ => true
  | PyInt z => in_int64 z || in_uint64 z
  | PyStr t => encodable_text t
  | PyTuple items | PyList items => forallb encodable items
  | PyDict items =>
      forallb (fun kv => key_has_text (fst kv) && encodable (snd kv)) items
  | PyOther _ => false
  end.

(** The state a run of [to_json] may end in: the one it started from, or
    the one that an import of [base64] makes of it. *)
Definition reaches (st st' : interp) : Prop :=
  st' = st \/ st' = snd (import_module "base64" st).

(** The type tests [to_json] goes through before it reaches a branch. *)
Ltac to_json_tests :=
  cbn [to_json is_none isinstance_bool isinstance_int isinstance_float
       isinstance_bytes isinstance_str isinstance_tuple isinstance_list
       isinstance_dict orb].

(** * Properties *)

(** ** The integer casts and the numerals *)

Lemma try_cast_checked cast o n :
  try_cast cast o = Some n -> cast o = Some n /\ int_value o = Some n.
Proof.
  unfold try_cast, int_equal. destruct (cast o) as [m|]; [|discriminate].
  destruct (int_value o) as [z|]; [|discriminate].
  destruct (Z.eqb_spec m z) as [->|]; [|discriminate].
  now intros [= ->].
Qed.

Lemma try_int64_int z :
  try_int64 (PyInt z) = if in_int64 z then Some z else None.
Proof.
  unfold try_int64, try_cast, cast_int64, int_equal. cbn [int_value].
  destruct (in_int64 z); [now rewrite Z.eqb_refl|reflexivity].
Qed.

Lemma try_uint64_int z :
  try_uint64 (PyInt z) = if in_uint64 z then Some z else None.
Proof.
  unfold try_uint64, try_cast, cast_uint64, int_equal. cbn [int_value].
  destruct (in_uint64 z); [now rewrite Z.eqb_refl|reflexivity].
Qed.

(** A numeral of at most 640 digits is printed under every limit. *)
Lemma short_numeral_printed z :
  decimal_digits z <= 640 -> int_to_decimal z = OK (decimal z).
Proof.
  intros H. unfold int_to_decimal, digit_limit_exceeded.
  destruct (Z.ltb_spec (Z.max 640 int_max_str_digits) (decimal_digits z)); [lia|].
  now rewrite andb_false_r.
Qed.

(** ** Bytes *)

Lemma byte_val_range c : 0 <= byte_val c < 256.
Proof. unfold byte_val. pose proof (N_ascii_bounded c). lia. Qed.

Lemma byte_of_val c : byte_of (byte_val c) = c.
Proof. unfold byte_of, byte_val. rewrite N2Z.id. apply ascii_N_embedding. Qed.

(** ** UTF-8: what decodes encodes back to the same bytes *)

Lemma encode_cp_1 b0 : 0 <= b0 < 128 -> utf8_encode_cp b0 = Some [b0].
Proof. intros. unfold utf8_encode_cp. split_ltb. reflexivity. Qed.

Lemma encode_cp_2 b0 b1 :
  194 <= b0 < 224 -> 128 <= b1 < 192 ->
  utf8_encode_cp ((b0 - 192) * 64 + (b1 - 128)) = Some [b0; b1].
Proof.
  intros. set (cp := (b0 - 192) * 64 + (b1 - 128)).
  assert (cp / 64 = b0 - 192) by (subst cp; Z.div_mod_to_equations; lia).
  assert (cp mod 64 = b1 - 128) by (subst cp; Z.div_mod_to_equations; lia).
  assert (128 <= cp < 2048) by (subst cp; lia).
  unfold utf8_encode_cp. split_ltb. repeat f_equal; lia.
Qed.

Lemma encode_cp_3 b0 b1 b2 :
  224 <= b0 < 240 -> 128 <= b1 < 192 -> 128 <= b2 < 192 ->
  let cp := (b0 - 224) * 4096 + (b1 - 128) * 64 + (b2 - 128) in
  2048 <= cp -> ((55296 <=? cp) && (cp <? 57344))%bool = false ->
  utf8_encode_cp cp = Some [b0; b1; b2].
Proof.
  intros ? ? ? cp ? Hs.
  assert (cp / 4096 = b0 - 224) by (subst cp; Z.div_mod_to_equations; lia).
  assert ((cp / 64) mod 64 = b1 - 128) by (subst cp; Z.div_mod_to_equations; lia).
  assert (cp mod 64 = b2 - 128) by (subst cp; Z.div_mod_to_equations; lia).
  assert (cp < 65536) by (subst cp; lia).
  unfold utf8_encode_cp. rewrite Hs.
  destruct (Z.ltb_spec cp 0); [lia|].
  destruct (Z.ltb_spec cp 128); [lia|].
  destruct (Z.ltb_spec cp 2048); [lia|].
  destruct (Z.ltb_spec cp 65536); [|lia].
  repeat f_equal; lia.
Qed.

Lemma encode_cp_4 b0 b1 b2 b3 :
  240 <= b0 < 245 -> 128 <= b1 < 192 -> 128 <= b2 < 192 -> 128 <= b3 < 192 ->
  let cp := (b0 - 240) * 262144 + (b1 - 128) * 4096 + (b2 - 128) * 64 + (b3 - 128) in
  65536 <= cp < 1114112 ->
  utf8_encode_cp cp = Some [b0; b1; b2; b3].
Proof.
  intros ? ? ? ? cp ?.
  assert (cp / 262144 = b0 - 240) by (subst cp; Z.div_mod_to_equations; lia).
  assert ((cp / 4096) mod 64 = b1 - 128) by (subst cp; Z.div_mod_to_equations; lia).
  assert ((cp / 64) mod 64 = b2 - 128) by (subst cp; Z.div_mod_to_equations; lia).
  assert (cp mod 64 = b3 - 128) by (subst cp; Z.div_mod_to_equations; lia).
  unfold utf8_encode_cp.
  destruct (Z.ltb_spec cp 0); [lia|].
  destruct (Z.ltb_spec cp 128); [lia|].
  destruct (Z.ltb_spec cp 2048); [lia|].
  destruct (Z.ltb_spec cp 65536); [lia|].
  destruct (Z.ltb_spec cp 1114112); [|lia].
  repeat f_equal; lia.
Qed.

Lemma cons_cp_some c r t :
  cons_cp c r = Some t -> exists t', r = Some t' /\ t = c :: t'.
Proof. destruct r; simpl; intros H; inversion H; eauto. Qed.

Lemma utf8_encode_cons c t bs s :
  utf8_encode_cp c = Some bs -> utf8_encode t = Some s ->
  utf8_encode (c :: t) = Some (bytes_of bs ++ s)%string.
Proof. intros Hc Ht. cbn [utf8_encode]. now rewrite Hc, Ht. Qed.

(** The decoder takes one to four bytes at a step, so the induction is on
    a bound of the length. *)
Lemma utf8_decode_encode_len n : forall s t,
  (String.length s <= n)%nat -> utf8_decode s = Some t -> utf8_encode t = Some s.
Proof.
  induction n as [|n IH]; intros s t Hn H.
  - destruct s; simpl in Hn; [|lia]. simpl in H. inversion H. reflexivity.
  - destruct s as [|c0 r0]; [simpl in H; inversion H; reflexivity|].
    cbn [utf8_decode] in H. cbv zeta in H.
    pose proof (byte_val_range c0) as R0. simpl in Hn.
    destruct (byte_val c0 <? 128) eqn:E1.
    { apply cons_cp_some in H. destruct H as (t' & Hd & ->).
      apply IH in Hd; [|lia]. zbool.
      rewrite (utf8_encode_cons _ _ _ _ (encode_cp_1 (byte_val c0) ltac:(lia)) Hd).
      cbn [bytes_of String.append]. now rewrite byte_of_val. }
    destruct (byte_val c0 <? 194) eqn:E2; [discriminate|].
    destruct (byte_val c0 <? 224) eqn:E3.
    { destruct r0 as [|c1 r1]; [discriminate|].
      destruct (is_cont (byte_val c1)) eqn:C1; [|discriminate].
      unfold is_cont in C1.
      apply cons_cp_some in H. destruct H as (t' & Hd & ->).
      simpl in Hn. apply IH in Hd; [|lia]. zbool.
      rewrite (utf8_encode_cons _ _ _ _
                 (encode_cp_2 (byte_val c0) (byte_val c1) ltac:(lia) ltac:(lia)) Hd).
      cbn [bytes_of String.append]. now rewrite !byte_of_val. }
    destruct (byte_val c0 <? 240) eqn:E4.
    { destruct r0 as [|c1 [|c2 r2]]; try discriminate.
      match type of H with (if ?b then _ else _) = _ =>
        destruct b eqn:C; [|discriminate] end.
      unfold is_cont in C. apply andb_prop in C. destruct C as [C Cs].
      rewrite negb_true_iff in Cs.
      apply cons_cp_some in H. destruct H as (t' & Hd & ->).
      simpl in Hn. apply IH in Hd; [|lia]. zbool.
      rewrite (utf8_encode_cons _ _ _ _
                 (encode_cp_3 (byte_val c0) (byte_val c1) (byte_val c2)
                    ltac:(lia) ltac:(lia) ltac:(lia) ltac:(lia) Cs) Hd).
      cbn [bytes_of String.append]. now rewrite !byte_of_val. }
    destruct (byte_val c0 <? 245) eqn:E5; [|discriminate].
    destruct r0 as [|c1 [|c2 [|c3 r3]]]; try discriminate.
    match type of H with (if ?b then _ else _) = _ =>
      destruct b eqn:C; [|discriminate] end.
    unfold is_cont in C.
    apply cons_cp_some in H. destruct H as (t' & Hd & ->).
    simpl in Hn. apply IH in Hd; [|lia]. zbool.
    rewrite (utf8_encode_cons _ _ _ _
               (encode_cp_4 (byte_val c0) (byte_val c1) (byte_val c2) (byte_val c3)
                  ltac:(lia) ltac:(lia) ltac:(lia) ltac:(lia) ltac:(lia)) Hd).
    cbn [bytes_of String.append]. now rewrite !byte_of_val.
Qed.

Lemma utf8_decode_encode s t : utf8_decode s = Some t -> utf8_encode t = Some s.
Proof. apply (utf8_decode_encode_len (String.length s)). lia. Qed.

Lemma utf8_decode_inj s1 s2 t :
  utf8_decode s1 = Some t -> utf8_decode s2 = Some t -> s1 = s2.
Proof. intros H1 H2. apply utf8_decode_encode in H1, H2. congruence. Qed.

Lemma utf8_decode_ascii s : ascii_only s -> utf8_decode s = Some (text_of s).
Proof.
  unfold ascii_only, text_of. induction s as [|c r IH]; simpl; intros H.
  - reflexivity.
  - inversion H; subst. destruct (Z.ltb_spec (byte_val c) 128); [|lia].
    rewrite IH by assumption. reflexivity.
Qed.

Lemma string_get_ascii s : ascii_only s ->
  forall n c, String.get n s = Some c -> byte_val c < 128.
Proof.
  unfold ascii_only. induction s as [|a r IH]; simpl; intros H n c Hg.
  - discriminate.
  - inversion H; subst. destruct n; [inversion Hg; subst; assumption|eauto].
Qed.

Lemma b64_alphabet_ascii : ascii_only b64_alphabet.
Proof.
  unfold ascii_only. apply Forall_forall. intros c Hc.
  apply Z.ltb_lt. revert c Hc. apply forallb_forall. vm_compute. reflexivity.
Qed.

Lemma b64_char_ascii i : byte_val (b64_char i) < 128.
Proof.
  unfold b64_char. destruct (String.get (Z.to_nat i) b64_alphabet) eqn:E.
  - eapply string_get_ascii; [apply b64_alphabet_ascii|eassumption].
  - vm_compute. reflexivity.
Qed.

Lemma b64encode_ascii_len n : forall bs,
  (String.length bs <= n)%nat -> ascii_only (b64encode bs).
Proof.
  unfold ascii_only.
  induction n as [|n IH]; intros bs Hn.
  - destruct bs; simpl in Hn; [constructor|lia].
  - destruct bs as [|c0 [|c1 [|c2 r]]]; cbn [b64encode]; cbv zeta;
      cbn [list_ascii_of_string];
      repeat (constructor; [first [apply b64_char_ascii | vm_compute; reflexivity]|]);
      try constructor.
    apply IH. simpl in Hn. lia.
Qed.

Lemma b64encode_ascii bs : ascii_only (b64encode bs).
Proof. apply (b64encode_ascii_len (String.length bs)). lia. Qed.

(** ** Induction on a structured value, through its arrays and objects *)

Lemma json_nested_ind (P : json -> Prop) :
  P JNull -> (forall b, P (JBool b)) -> (forall z, P (JInt64 z)) ->
  (forall u, P (JUInt64 u)) -> (forall d, P (JFloat64 d)) ->
  (forall s, P (JString s)) ->
  (forall elems, Forall P elems -> P (JArray elems)) ->
  (forall fields, Forall (fun kv => P (snd kv)) fields -> P (JObject fields)) ->
  forall j, P j.
Proof.
  intros Hnull Hbool Hint Huint Hfloat Hstring Harray Hobject.
  fix IH 1. intros [ | b | z | u | d | s | elems | fields ].
  - exact Hnull.
  - apply Hbool.
  - apply Hint.
  - apply Huint.
  - apply Hfloat.
  - apply Hstring.
  - apply Harray. induction elems as [|x r IHr]; constructor; [apply IH | exact IHr].
  - apply Hobject. induction fields as [|kv r IHr]; constructor; [apply IH | exact IHr].
Qed.

Lemma nodupb_NoDup l : nodupb l = true <-> NoDup l.
Proof.
  induction l as [|x r IH]; simpl.
  - split; [constructor|reflexivity].
  - rewrite andb_true_iff, negb_true_iff, IH. split.
    + intros [Hx Hr]. constructor; [|assumption].
      intros Hin. assert (existsb (String.eqb x) r = true); [|congruence].
      apply existsb_exists. exists x. split; [assumption|apply String.eqb_refl].
    + intros Hnd. inversion Hnd; subst. split; [|assumption].
      apply not_true_is_false. intros He. apply existsb_exists in He.
      destruct He as (y & Hy & Heq). apply String.eqb_eq in Heq. subst. contradiction.
Qed.

Lemma object_set_fresh key value fields :
  ~ In key (map fst fields) -> object_set key value fields = fields ++ [(key, value)].
Proof.
  induction fields as [|[k v] r IH]; simpl; intros Hn; [reflexivity|].
  destruct (String.eqb_spec k key) as [->|Hne]; [tauto|].
  rewrite IH; tauto.
Qed.

Lemma dict_set_str_fresh key value items ts :
  str_keyed items ts -> ~ In key ts ->
  dict_set_str key value items = items ++ [(PyStr key, value)].
Proof.
  unfold str_keyed. revert ts.
  induction items as [|[k v] r IH]; simpl; intros ts Hk Hn; [reflexivity|].
  destruct ts as [|t ts]; [discriminate|]. simpl in Hk. inversion Hk; subst.
  destruct (list_eq_dec Z.eq_dec t key) as [->|Hne]; [simpl in Hn; tauto|].
  erewrite IH; eauto. simpl in Hn. tauto.
Qed.

Lemma for_each_nil {A Acc} (body : Acc -> A -> result Acc) acc :
  for_each body [] acc = OK acc.
Proof. reflexivity. Qed.

Lemma for_each_cons {A Acc} (body : Acc -> A -> result Acc) x r acc :
  for_each body (x :: r) acc = rbind (body acc x) (for_each body r).
Proof. reflexivity. Qed.

Lemma for_eachM_nil {A Acc} (body : Acc -> A -> M Acc) acc st :
  for_eachM body [] acc st = (OK acc, st).
Proof. reflexivity. Qed.

Lemma for_eachM_cons {A Acc} (body : Acc -> A -> M Acc) x r acc st :
  for_eachM body (x :: r) acc st =
  match body acc x st with
  | (OK acc', st') => for_eachM body r acc' st'
  | (Err e, st') => (Err e, st')
  end.
Proof. reflexivity. Qed.

(** ** The round trip *)

Lemma array_loop_decode elems :
  Forall (fun v => exists o, round_trips v o) elems ->
  exists os, Forall2 round_trips elems os /\
    forall acc,
      for_each (fun obj el => rbind (from_json el) (fun x => OK (push_back obj x)))
        elems acc = OK (acc ++ os).
Proof.
  induction 1 as [|v r [o Ho] _ (os & Hos & IH)].
  - exists []. split; [constructor|]. intros acc.
    now rewrite for_each_nil, app_nil_r.
  - exists (o :: os). split; [constructor; assumption|].
    intros acc. rewrite for_each_cons. destruct Ho as [Hd _]. rewrite Hd.
    cbn [rbind]. rewrite IH. unfold push_back. now rewrite <- app_assoc.
Qed.

Lemma array_loop_encode elems os :
  Forall2 round_trips elems os ->
  forall out st,
    for_eachM (fun out value => j <- to_json value ;; ret (push_back out j))
      os out st = (OK (out ++ elems), st).
Proof.
  induction 1 as [|v o r os' [_ He] _ IH]; intros out st.
  - now rewrite for_eachM_nil, app_nil_r.
  - rewrite for_eachM_cons. unfold bind, ret. rewrite He.
    rewrite IH. unfold push_back. now rewrite <- app_assoc.
Qed.

Lemma field_item_keys fields items :
  Forall2 field_item fields items ->
  exists ts, str_keyed items ts /\ Forall2 (fun k t => utf8_decode k = Some t) (map fst fields) ts.
Proof.
  induction 1 as [|kv item r items' (t & Ht & Hk & _) _ (ts & Hts & IH)].
  - exists []. split; [reflexivity|constructor].
  - exists (t :: ts). split.
    + unfold str_keyed in *. simpl. congruence.
    + simpl. constructor; assumption.
Qed.

Lemma decoded_key_fresh keys ts k t :
  Forall2 (fun k t => utf8_decode k = Some t) keys ts ->
  utf8_decode k = Some t -> ~ In k keys -> ~ In t ts.
Proof.
  induction 1 as [|k' t' keys' ts' Hk' _ IH]; simpl; intros Hk Hn; [tauto|].
  intros [->|Hin].
  - apply Hn. left. eapply utf8_decode_inj; eassumption.
  - apply IH; tauto.
Qed.

Lemma object_loop_decode fields :
  Forall (fun kv => utf8_valid (fst kv) = true /\ exists o, round_trips (snd kv) o) fields ->
  forall done acc,
    NoDup (map fst (done ++ fields)) ->
    Forall2 field_item done acc ->
    exists items, Forall2 field_item fields items /\
      for_each (fun obj kv =>
                  rbind (from_json (snd kv)) (fun value =>
                  rbind (decode_text (fst kv)) (fun key =>
                  OK (dict_set_str key value obj))))
        fields acc = OK (acc ++ items).
Proof.
  induction 1 as [|[k v] r [Hu [o Ho]] _ IH]; intros done acc Hnd Hacc.
  - exists []. split; [constructor|]. now rewrite for_each_nil, app_nil_r.
  - simpl in Hu, Ho. unfold utf8_valid in Hu.
    destruct (utf8_decode k) as [t|] eqn:Hk; [|discriminate].
    assert (Hitem : field_item (k, v) (PyStr t, o)).
    { exists t. simpl. auto. }
    destruct (IH (done ++ [(k, v)]) (acc ++ [(PyStr t, o)])) as (items & Hitems & Hloop).
    { now rewrite <- app_assoc. }
    { apply Forall2_app; [assumption|]. constructor; [assumption|constructor]. }
    exists ((PyStr t, o) :: items). split; [constructor; assumption|].
    assert (Hdt : decode_text k = OK t) by (unfold decode_text; now rewrite Hk).
    rewrite for_each_cons. cbn [fst snd]. destruct Ho as [Hd He].
    rewrite Hd, Hdt. cbn [rbind].
    destruct (field_item_keys _ _ Hacc) as (ts & Hts & Hdec).
    rewrite (dict_set_str_fresh t o acc ts Hts).
    + rewrite Hloop. now rewrite <- app_assoc.
    + eapply decoded_key_fresh; [eassumption|eassumption|].
      rewrite map_app in Hnd. simpl in Hnd.
      apply NoDup_remove_2 in Hnd. intros Hin. apply Hnd.
      apply in_or_app. now left.
Qed.

Lemma object_loop_encode fields items :
  Forall2 field_item fields items ->
  forall out st,
    NoDup (map fst (out ++ fields)) ->
    for_eachM (fun out kv =>
                 j <- to_json (snd kv) ;;
                 key <- lift (py_str (fst kv)) ;;
                 ret (object_set key j out))
      items out st = (OK (out ++ fields), st).
Proof.
  induction 1 as [|[k v] [ko o] r items' (t & Ht & Hk & _ & He) _ IH];
    intros out st Hnd.
  - now rewrite for_eachM_nil, app_nil_r.
  - simpl in Ht, Hk, He. subst ko.
    rewrite for_eachM_cons. cbn [fst snd]. unfold bind, ret, lift. rewrite He.
    unfold py_str, cast_string, as_utf8.
    rewrite (utf8_decode_encode _ _ Ht).
    rewrite object_set_fresh.
    + rewrite IH; rewrite <- app_assoc; [reflexivity|assumption].
    + rewrite map_app in Hnd. simpl in Hnd. apply NoDup_remove_2 in Hnd.
      intros Hin. apply Hnd. apply in_or_app. now left.
Qed.

(** C1. Round trip. A structured value built without [UInt64] decodes
    to an object, and that object encodes back to the very same value, the
    fields of every object in their order, leaving the interpreter as it
    was. [json_wf] is what makes a term of [json] a structured value: the
    numbers fit their 64 bits, an object has each key once, the strings
    and keys are texts. *)
Theorem from_json_to_json_round_trip (v : json) :
  json_wf v = true -> signed_only v = true ->
  exists o, from_json v = OK o /\ forall st, to_json o st = (OK v, st).
Proof.
  induction v using json_nested_ind; intros Hwf Hs.
  - exists PyNone. split; reflexivity.
  - exists (PyBool b). split; reflexivity.
  - exists (PyInt z). split; [reflexivity|]. intros st. simpl in Hwf.
    to_json_tests. rewrite try_int64_int, Hwf. reflexivity.
  - discriminate.
  - exists (PyFloat d). split; reflexivity.
  - simpl in Hwf. unfold utf8_valid in Hwf.
    destruct (utf8_decode s) as [t|] eqn:Hd; [|discriminate].
    exists (PyStr t). split.
    + simpl. unfold py_str_of_string. now rewrite Hd.
    + intros st. simpl. unfold bind, lift, cast_string, as_utf8.
      rewrite (utf8_decode_encode _ _ Hd). reflexivity.
  - simpl in Hwf, Hs. rewrite forallb_forall in Hwf, Hs.
    assert (Hall : Forall (fun v => exists o, round_trips v o) elems).
    { rewrite Forall_forall in *. intros x Hx. apply H; auto. }
    destruct (array_loop_decode _ Hall) as (os & Hos & Hloop).
    exists (PyList os). split.
    + simpl. rewrite Hloop. reflexivity.
    + intros st. simpl. unfold bind at 1.
      rewrite (array_loop_encode _ _ Hos). reflexivity.
  - simpl in Hwf, Hs. apply andb_prop in Hwf. destruct Hwf as [Hnd Hwf].
    rewrite forallb_forall in Hwf, Hs. apply nodupb_NoDup in Hnd.
    assert (Hall : Forall (fun kv => utf8_valid (fst kv) = true
                                     /\ exists o, round_trips (snd kv) o) fields).
    { rewrite Forall_forall in *. intros kv Hkv.
      specialize (Hwf kv Hkv). apply andb_prop in Hwf. destruct Hwf.
      split; [assumption|]. apply H; auto. }
    destruct (object_loop_decode _ Hall [] []) as (items & Hitems & Hloop);
      [assumption|constructor|].
    exists (PyDict items). split.
    + simpl. rewrite Hloop. reflexivity.
    + intros st. simpl. unfold bind at 1.
      rewrite (object_loop_encode _ _ Hitems); [reflexivity|assumption].
Qed.

(** ** [to_json], branch by branch *)

(** C2. Integers. Each of the two [try] blocks gives back the number of its
    cast only when the cast gave that number and the number, built back into
    an [int], equals the object: whatever the cast does, no other number gets
    through. [to_json] takes the result of the signed block first, then that
    of the unsigned block, and throws when both have failed. So an integer
    of [int64_t] gives [Int64], one above it that fits [uint64_t] gives
    [UInt64], and any other is refused: as out of range, with its numeral in
    the message, or, when the interpreter does not print a numeral that
    long, with the [ValueError] of [repr]. In particular [2^63] gives
    [UInt64 (2^63)], [2^64] is refused as out of range, [-1] gives
    [Int64 (-1)]. *)
Theorem to_json_integer (z : Z) (st : interp) :
  (forall cast o n,
     try_cast cast o = Some n -> cast o = Some n /\ int_value o = Some n)
  /\ to_json (PyInt z) st =
       (match try_int64 (PyInt z), try_uint64 (PyInt z) with
        | Some s, _ => OK (JInt64 s)
        | None, Some u => OK (JUInt64 u)
        | None, None =>
            rbind (py_repr (PyInt z))
              (fun r => Err (IntegerOutOfRange (out_of_range_msg ++ r)%string))
        end, st)
  /\ to_json (PyInt z) st =
       (if in_int64 z then OK (JInt64 z)
        else if in_uint64 z then OK (JUInt64 z)
        else if digit_limit_exceeded z then Err ValueError
        else Err (IntegerOutOfRange (out_of_range_msg ++ decimal z)%string), st)
  /\ to_json (PyInt (2 ^ 63)) st = (OK (JUInt64 (2 ^ 63)), st)
  /\ to_json (PyInt (2 ^ 64)) st
     = (Err (IntegerOutOfRange (out_of_range_msg ++ "18446744073709551616")%string),
        st)
  /\ to_json (PyInt (-1)) st = (OK (JInt64 (-1)), st).
Proof.
  split; [exact try_cast_checked|].
  split; [|split; [|split; [reflexivity|split; [|reflexivity]]]].
  - to_json_tests.
    destruct (try_int64 (PyInt z)); [reflexivity|].
    destruct (try_uint64 (PyInt z)); [reflexivity|].
    unfold bind, lift, throw. cbn [py_repr].
    destruct (int_to_decimal z); reflexivity.
  - to_json_tests. rewrite try_int64_int, try_uint64_int.
    destruct (in_int64 z); [reflexivity|].
    destruct (in_uint64 z); [reflexivity|].
    unfold bind, lift, throw. cbn [py_repr]. unfold int_to_decimal.
    destruct (digit_limit_exceeded z); reflexivity.
  - to_json_tests. rewrite try_int64_int, try_uint64_int.
    replace (in_int64 (2 ^ 64)) with false by reflexivity.
    replace (in_uint64 (2 ^ 64)) with false by reflexivity.
    unfold bind, lift, throw. cbn [py_repr].
    rewrite short_numeral_printed; [reflexivity|].
    now vm_compute.
Qed.

(** C6. The boolean test comes before the integer test: an object that
    passes both is encoded as a [Bool], never as a number. *)
Theorem to_json_bool_before_int (o : pyobj) (st : interp) :
  isinstance_bool o = true -> isinstance_int o = true ->
  to_json o st = (OK (JBool (cast_bool o)), st).
Proof.
  intros Hb _. destruct o; try discriminate. reflexivity.
Qed.

(** C7. A [bytes] is encoded as the String that holds the base64 form of
    its bytes; the only trace in the interpreter is the import of
    [base64]. The bytes [FF 00 10] give ["/wAQ"]. *)
Theorem to_json_bytes (bs : string) (st : interp) :
  to_json (PyBytes bs) st
    = (OK (JString (b64encode bs)), snd (import_module "base64" st))
  /\ to_json (PyBytes (bytes_of [255; 0; 16])) st
     = (OK (JString "/wAQ"), snd (import_module "base64" st)).
Proof.
  assert (Hgen : forall bs, to_json (PyBytes bs) st
            = (OK (JString (b64encode bs)), snd (import_module "base64" st)));
    [|split; [apply Hgen|exact (Hgen (bytes_of [255; 0; 16]))]].
  intros bs'. clear bs. rename bs' into bs.
  to_json_tests. cbn [base64_b64encode bytes_decode].
  unfold bind, lift, ret, py_str_of_string, cast_string, as_utf8.
  rewrite (utf8_decode_ascii _ (b64encode_ascii bs)).
  rewrite (utf8_decode_encode _ _ (utf8_decode_ascii _ (b64encode_ascii bs))).
  unfold import_module. destruct (existsb _ _); reflexivity.
Qed.


Lemma object_set_keys key j out k :
  In k (map fst (object_set key j out)) <-> k = key \/ In k (map fst out).
Proof.
  induction out as [|[k0 v0] r IH]; simpl.
  - intuition.
  - destruct (String.eqb_spec k0 key) as [->|Hne]; simpl; [intuition|].
    rewrite IH. intuition.
Qed.

Lemma dict_loop_keys items :
  Forall encodable_item items ->
  forall out st,
  exists out' st',
    for_eachM (fun out kv =>
                 j <- to_json (snd kv) ;;
                 key <- lift (py_str (fst kv)) ;;
                 ret (object_set key j out))
      items out st = (OK out', st')
    /\ forall k, In k (map fst out') <->
                 In k (map fst out)
                 \/ exists key, In key (map fst items) /\ py_str key = OK k.
Proof.
  induction 1 as [|[key v] r [Hv [k0 Hk]] _ IH]; intros out st.
  - exists out, st. split; [reflexivity|]. intros k. simpl. split.
    + intros Hin. now left.
    + intros [Hin|(key & [] & _)]. exact Hin.
  - simpl in Hv, Hk. destruct (Hv st) as (j & st1 & Hj).
    destruct (IH (object_set k0 j out) st1) as (out' & st' & Hloop & Hkeys).
    exists out', st'. split.
    + rewrite for_eachM_cons. cbn [fst snd]. unfold bind, lift, ret.
      rewrite Hj, Hk. exact Hloop.
    + intros k. rewrite Hkeys, object_set_keys. simpl. split.
      * intros [[->|Hin]|(key' & Hin & Hk')].
        -- right. exists key. split; [now left|exact Hk].
        -- now left.
        -- right. exists key'. split; [now right|exact Hk'].
      * intros [Hin|(key' & [<-|Hin] & Hk')].
        -- left. now right.
        -- left. left. congruence.
        -- right. exists key'. split; assumption.
Qed.

(** C8. A mapping is encoded as an Object whose keys are the texts of
    the keys of the mapping: a [str] key as it is, any other key through
    [str()]. A mapping with the key [42] gives an Object with the key
    ["42"]. The hypothesis says that the mapping can be encoded at all:
    [to_json] takes its values and its keys have a text. *)
Theorem to_json_dict_keys (items : list (pyobj * pyobj)) (st : interp) :
  Forall encodable_item items ->
  (exists fields st',
     to_json (PyDict items) st = (OK (JObject fields), st')
     /\ forall k, In k (map fst fields) <->
                  exists key, In key (map fst items) /\ py_str key = OK k)
  /\ (forall v j st', to_json v st = (OK j, st') ->
        to_json (PyDict [(PyInt 42, v)]) st = (OK (JObject [("42"%string, j)]), st')).
Proof.
  intros Hitems. split.
  - destruct (dict_loop_keys items Hitems [] st) as (out & st' & Hloop & Hkeys).
    exists out, st'. split.
    + to_json_tests.
      unfold bind at 1. rewrite Hloop. reflexivity.
    + intros k. rewrite Hkeys. simpl. tauto.
  - intros v j st' Hv.
    to_json_tests.
    unfold bind at 1. rewrite for_eachM_cons. cbn [fst snd py_str].
    rewrite (short_numeral_printed 42) by now vm_compute.
    unfold bind, lift, ret. rewrite Hv. reflexivity.
Qed.

(** ** [from_json] on the unsigned integers *)

(** C5. An unsigned value above [2^63 - 1] is decoded by the signed
    branch: the integer object built holds the value minus [2^64], as
    [UInt64 (2^63)] gives [-2^63]. Every value that passes the unsigned
    test passes the integer test, which comes first, so the unsigned
    branch is never reached. *)
Theorem from_json_unsigned_as_signed (u : Z) :
  int64_max < u <= uint64_max ->
  from_json (JUInt64 u) = OK (PyInt (to_int64 u))
  /\ to_int64 u = u - 2 ^ 64
  /\ from_json (JUInt64 (2 ^ 63)) = OK (PyInt (- 2 ^ 63))
  /\ forall j, is_number_unsigned j = true -> is_number_integer j = true.
Proof.
  unfold int64_max, uint64_max. intros Hu.
  split; [reflexivity|]. split; [|split; [reflexivity|]].
  - unfold to_int64.
    replace (u + 2 ^ 63) with ((u - 2 ^ 63) + 1 * 2 ^ 64) by lia.
    rewrite Z.mod_add by lia. rewrite Z.mod_small; lia.
  - intros j Hj. destruct j; try discriminate. reflexivity.
Qed.

(** ** [vineyard_add_doc] *)

Lemma doc_buffer_payload s doc :
  payload_of s doc -> doc_buffer doc = OK (s, String.length s).
Proof.
  intros [->|[Hs Hu]]; [reflexivity|].
  unfold doc_buffer. rewrite Hs, Hu.
  destruct (isinstance_bytes doc); reflexivity.
Qed.



(** C3. Write once, where it fails. An object of none of the five kinds
    whose [__doc__] cannot be looked up, and that takes the assignment, is a
    documentable target with an empty slot. The first call with the text
    ["hello"] writes the attribute and yet does not succeed: the
    [AttributeError] of the lookup is still set when the function returns,
    and the call ends in [SystemError]. The call with ["world"] that follows
    finds the docstring and is refused with [AlreadyDocumented]. *)
Theorem add_doc_missing_attribute_raises :
  documentable attribute_less = true
  /\ slot_empty attribute_less = true
  /\ add_docs attribute_less [PyStr (text_of "hello"); PyStr (text_of "world")]
     = ([Err SystemError; Err (AlreadyDocumented "Object" None)],
        Object {| doc_attr := Some (PyStr (text_of "hello"));
                  doc_settable := true |}).
Proof. repeat split; reflexivity. Qed.

(** C4, as amended. A payload that is a [str] with no UTF-8 form is
    refused with [InvalidText], and the target is left as it was. *)
Theorem add_doc_invalid_text (obj : target) (doc : pyobj) :
  isinstance_str doc = true -> as_utf8 doc = None ->
  vineyard_add_doc obj doc = (Err InvalidText, obj).
Proof.
  intros Hs Hu. unfold vineyard_add_doc, doc_buffer. now rewrite Hs, Hu.
Qed.

(** C10. On a target of one of the five known kinds whose slot is empty,
    a payload that is neither a [bytes] nor a [str] is not refused: the
    call succeeds and the slot reads ["<invalid string>"]. *)
Theorem add_doc_invalid_string_default (obj : target) (doc : pyobj) :
  known_kind obj = true -> slot_empty obj = true ->
  isinstance_bytes doc = false -> isinstance_str doc = false ->
  exists obj', vineyard_add_doc obj doc = (OK tt, obj')
               /\ doc_text obj' = Some invalid_string.
Proof.
  intros Hk He Hb Hs. unfold vineyard_add_doc, doc_buffer. rewrite Hb, Hs.
  assert (Hdup : strndup invalid_string (strlen invalid_string) = invalid_string)
    by reflexivity.
  destruct obj as [m|m|m|g|t|o]; try discriminate; simpl in He.
  1-3: destruct m as [nm [[|c d]|]]; try discriminate;
       cbn [ml_doc nonempty_c_str]; rewrite Hdup; eexists; split; reflexivity.
  - destruct g as [nm [[|c d]|]]; try discriminate;
      cbn [gs_doc nonempty_c_str]; rewrite Hdup; eexists; split; reflexivity.
  - destruct t as [nm [[|c d]|]]; try discriminate;
      cbn [tp_doc nonempty_c_str]; rewrite Hdup; eexists; split; reflexivity.
Qed.

(** ** At the edges of the properties *)

Lemma to_int64_range z : int64_min <= to_int64 z <= int64_max.
Proof.
  unfold to_int64, int64_min, int64_max.
  pose proof (Z.mod_pos_bound (z + 2 ^ 63) (2 ^ 64) ltac:(lia)). lia.
Qed.

(** An unsigned value does not come back as it went: it is decoded as the
    signed integer of the same 64 bits, which is encoded as an [Int64]. *)
Theorem unsigned_comes_back_signed (u : Z) (st : interp) :
  exists o, from_json (JUInt64 u) = OK o
            /\ to_json o st = (OK (JInt64 (to_int64 u)), st).
Proof.
  exists (PyInt (to_int64 u)). split; [reflexivity|].
  to_json_tests. rewrite try_int64_int. unfold in_int64.
  pose proof (to_int64_range u) as [Hlo Hhi].
  apply Z.leb_le in Hlo, Hhi. now rewrite Hlo, Hhi.
Qed.

(** The empty collections: a [list] and a [tuple] without items give the
    empty Array, a [dict] without items the empty Object, and both decode
    to empty collections. *)
Theorem empty_collections (st : interp) :
  to_json (PyList []) st = (OK (JArray []), st)
  /\ to_json (PyTuple []) st = (OK (JArray []), st)
  /\ to_json (PyDict []) st = (OK (JObject []), st)
  /\ from_json (JArray []) = OK (PyList [])
  /\ from_json (JObject []) = OK (PyDict []).
Proof. repeat split; reflexivity. Qed.

(** A [tuple] and a [list] of the same items are encoded alike. *)
Theorem tuple_as_list (items : list pyobj) :
  to_json (PyTuple items) = to_json (PyList items).
Proof. reflexivity. Qed.

(** A String that is not a text in UTF-8 is not decoded: [py::str] does
    not build the object. *)
Theorem from_json_ill_formed_text :
  json_wf (JString (bytes_of [255])) = false
  /\ from_json (JString (bytes_of [255])) = Err ConstructionFailed
  /\ from_json (JArray [JNull; JString (bytes_of [255])]) = Err ConstructionFailed.
Proof. repeat split; reflexivity. Qed.

(** The copy made by [strndup] ends at the first NUL: an empty text, or a
    [bytes] that starts with a NUL, leaves the slot empty, and the next call
    is accepted. *)
Theorem add_doc_empty_text_leaves_slot_open :
  add_docs fresh_function
    [PyStr []; PyBytes (String NUL "x"); PyStr (text_of "world")]
  = ([OK tt; OK tt; OK tt],
     CFunction {| ml_name := "connect"; ml_doc := Some "world"%string |}).
Proof. reflexivity. Qed.

(** The [else] branch on an object that refuses the assignment. *)
Theorem add_doc_not_settable (o : PyObject) (doc : pyobj) :
  interpretable_as_text doc = true -> slot_empty (Object o) = true ->
  doc_settable o = false ->
  vineyard_add_doc (Object o) doc = (Err AttributeNotSettable, Object o).
Proof.
  intros Hdoc Hempty Hset. unfold vineyard_add_doc.
  assert (Hbuf : exists b, doc_buffer doc = OK b).
  { destruct doc; try discriminate.
    - eexists. reflexivity.
    - unfold doc_buffer. cbn [isinstance_bytes isinstance_str as_utf8].
      simpl in Hdoc. destruct (utf8_encode t); [eexists; reflexivity|discriminate]. }
  destruct Hbuf as [[doc_str doc_len] ->].
  assert (Hno : has_docstring (doc_attr o) = false).
  { simpl in Hempty.
    destruct (doc_attr o) as [[| | | |[|]|[|]| | | |]|]; try discriminate;
      reflexivity. }
  now rewrite Hno, Hset.
Qed.

(** * Further properties *)

(** ** UTF-8: what encodes decodes back to the same text *)

Lemma byte_val_of z : 0 <= z < 256 -> byte_val (byte_of z) = z.
Proof.
  intros H. unfold byte_val, byte_of.
  rewrite N_ascii_embedding by lia. lia.
Qed.

Lemma utf8_encode_cp_scalar c :
  utf8_encode_cp c <> None <-> scalar_value c = true.
Proof.
  unfold utf8_encode_cp, scalar_value.
  destruct (Z.ltb_spec c 0); [split; [congruence|]|].
  { destruct (Z.leb_spec 0 c); [lia|discriminate]. }
  destruct (Z.leb_spec 0 c); [|lia]. cbn [andb].
  destruct (Z.ltb_spec c 128).
  { destruct (Z.ltb_spec c 1114112); [|lia].
    destruct (Z.leb_spec 55296 c); [lia|]. split; [reflexivity|discriminate]. }
  destruct (Z.ltb_spec c 2048).
  { destruct (Z.ltb_spec c 1114112); [|lia].
    destruct (Z.leb_spec 55296 c); [lia|]. split; [reflexivity|discriminate]. }
  destruct (Z.ltb_spec c 65536).
  { destruct (Z.ltb_spec c 1114112); [|lia]. cbn [andb].
    destruct ((55296 <=? c) && (c <? 57344))%bool; cbn [negb];
      split; congruence. }
  destruct (Z.ltb_spec c 1114112); cbn [andb].
  - destruct (Z.leb_spec 55296 c); [|lia].
    destruct (Z.ltb_spec c 57344); [lia|]. split; [reflexivity|discriminate].
  - split; congruence.
Qed.

Lemma utf8_encode_scalar t :
  utf8_encode t <> None <-> encodable_text t = true.
Proof.
  unfold encodable_text. induction t as [|c r IH]; cbn [utf8_encode forallb].
  - split; [reflexivity|discriminate].
  - rewrite andb_true_iff, <- IH, <- utf8_encode_cp_scalar.
    destruct (utf8_encode_cp c), (utf8_encode r); split;
      try (intros [? ?]); try intros ?; try congruence; split; congruence.
Qed.

Lemma some_inj {A} (x y : A) : Some x = Some y -> x = y.
Proof. congruence. Qed.

(** The decoder on the bytes of one encoded code point. *)
Lemma utf8_decode_encoded_cp c bs rest :
  utf8_encode_cp c = Some bs ->
  utf8_decode (bytes_of bs ++ rest)%string = cons_cp c (utf8_decode rest).
Proof.
  unfold utf8_encode_cp.
  destruct (Z.ltb_spec c 0); [discriminate|].
  destruct (Z.ltb_spec c 128).
  { intros E. apply some_inj in E. rewrite <- E. clear E. cbn [bytes_of String.append utf8_decode].
    cbv zeta. rewrite byte_val_of by lia.
    destruct (Z.ltb_spec c 128); [reflexivity|lia]. }
  destruct (Z.ltb_spec c 2048).
  { intros E. apply some_inj in E. rewrite <- E. clear E. cbn [bytes_of String.append utf8_decode].
    cbv zeta.
    assert (2 <= c / 64 < 32) by (Z.div_mod_to_equations; lia).
    assert (0 <= c mod 64 < 64) by (Z.div_mod_to_equations; lia).
    rewrite !byte_val_of by lia. unfold is_cont.
    destruct (Z.ltb_spec (192 + c / 64) 128); [lia|].
    destruct (Z.ltb_spec (192 + c / 64) 194); [lia|].
    destruct (Z.ltb_spec (192 + c / 64) 224); [|lia].
    destruct (Z.leb_spec 128 (128 + c mod 64)); [|lia].
    destruct (Z.ltb_spec (128 + c mod 64) 192); [|lia].
    cbn [andb]. f_equal. Z.div_mod_to_equations; lia. }
  destruct (Z.ltb_spec c 65536).
  { destruct ((55296 <=? c) && (c <? 57344))%bool eqn:Sur; [discriminate|].
    intros E. apply some_inj in E. rewrite <- E. clear E. cbn [bytes_of String.append utf8_decode].
    cbv zeta.
    assert (0 <= c / 4096 < 16) by (Z.div_mod_to_equations; lia).
    assert (0 <= (c / 64) mod 64 < 64) by (Z.div_mod_to_equations; lia).
    assert (0 <= c mod 64 < 64) by (Z.div_mod_to_equations; lia).
    rewrite !byte_val_of by lia. unfold is_cont.
    replace ((224 + c / 4096 - 224) * 4096 + (128 + (c / 64) mod 64 - 128) * 64
             + (128 + c mod 64 - 128)) with c
      by (Z.div_mod_to_equations; lia).
    rewrite Sur.
    destruct (Z.ltb_spec (224 + c / 4096) 128); [lia|].
    destruct (Z.ltb_spec (224 + c / 4096) 194); [lia|].
    destruct (Z.ltb_spec (224 + c / 4096) 224); [lia|].
    destruct (Z.ltb_spec (224 + c / 4096) 240); [|lia].
    destruct (Z.leb_spec 128 (128 + (c / 64) mod 64)); [|lia].
    destruct (Z.ltb_spec (128 + (c / 64) mod 64) 192); [|lia].
    destruct (Z.leb_spec 128 (128 + c mod 64)); [|lia].
    destruct (Z.ltb_spec (128 + c mod 64) 192); [|lia].
    destruct (Z.leb_spec 2048 c); [|lia].
    reflexivity. }
  destruct (Z.ltb_spec c 1114112); [|discriminate].
  intros E. apply some_inj in E. rewrite <- E. clear E. cbn [bytes_of String.append utf8_decode].
  cbv zeta.
  assert (0 <= c / 262144 < 5) by (Z.div_mod_to_equations; lia).
  assert (0 <= (c / 4096) mod 64 < 64) by (Z.div_mod_to_equations; lia).
  assert (0 <= (c / 64) mod 64 < 64) by (Z.div_mod_to_equations; lia).
  assert (0 <= c mod 64 < 64) by (Z.div_mod_to_equations; lia).
  rewrite !byte_val_of by lia. unfold is_cont.
  replace ((240 + c / 262144 - 240) * 262144
           + (128 + (c / 4096) mod 64 - 128) * 4096
           + (128 + (c / 64) mod 64 - 128) * 64 + (128 + c mod 64 - 128)) with c
    by (Z.div_mod_to_equations; lia).
  destruct (Z.ltb_spec (240 + c / 262144) 128); [lia|].
  destruct (Z.ltb_spec (240 + c / 262144) 194); [lia|].
  destruct (Z.ltb_spec (240 + c / 262144) 224); [lia|].
  destruct (Z.ltb_spec (240 + c / 262144) 240); [lia|].
  destruct (Z.ltb_spec (240 + c / 262144) 245); [|lia].
  destruct (Z.leb_spec 128 (128 + (c / 4096) mod 64)); [|lia].
  destruct (Z.ltb_spec (128 + (c / 4096) mod 64) 192); [|lia].
  destruct (Z.leb_spec 128 (128 + (c / 64) mod 64)); [|lia].
  destruct (Z.ltb_spec (128 + (c / 64) mod 64) 192); [|lia].
  destruct (Z.leb_spec 128 (128 + c mod 64)); [|lia].
  destruct (Z.ltb_spec (128 + c mod 64) 192); [|lia].
  destruct (Z.leb_spec 65536 c); [|lia].
  destruct (Z.ltb_spec c 1114112); [|lia].
  reflexivity.
Qed.

Lemma utf8_encode_decode t : forall s,
  utf8_encode t = Some s -> utf8_decode s = Some t.
Proof.
  induction t as [|c r IH]; cbn [utf8_encode]; intros s E.
  - inversion E. reflexivity.
  - destruct (utf8_encode_cp c) as [bs|] eqn:Ec; [|discriminate].
    destruct (utf8_encode r) as [s'|] eqn:Er; [|discriminate].
    inversion E; subst.
    rewrite (utf8_decode_encoded_cp _ _ _ Ec), (IH _ eq_refl). reflexivity.
Qed.

Lemma utf8_encode_inj t1 t2 s :
  utf8_encode t1 = Some s -> utf8_encode t2 = Some s -> t1 = t2.
Proof. intros H1 H2. apply utf8_encode_decode in H1, H2. congruence. Qed.

(** ** Induction on an object, through its items *)

Lemma pyobj_nested_ind (P : pyobj -> Prop) :
  P PyNone -> (forall b, P (PyBool b)) -> (forall z, P (PyInt z)) ->
  (forall d, P (PyFloat d)) -> (forall bs, P (PyBytes bs)) ->
  (forall t, P (PyStr t)) ->
  (forall items, Forall P items -> P (PyTuple items)) ->
  (forall items, Forall P items -> P (PyList items)) ->
  (forall items, Forall (fun kv => P (fst kv) /\ P (snd kv)) items ->
                 P (PyDict items)) ->
  (forall n, P (PyOther n)) ->
  forall o, P o.
Proof.
  intros Hnone Hbool Hint Hfloat Hbytes Hstr Htuple Hlist Hdict Hother.
  fix IH 1. intros [ | b | z | d | bs | t | items | items | items | n ].
  - exact Hnone.
  - apply Hbool.
  - apply Hint.
  - apply Hfloat.
  - apply Hbytes.
  - apply Hstr.
  - apply Htuple. induction items as [|x r IHr]; constructor; [apply IH|exact IHr].
  - apply Hlist. induction items as [|x r IHr]; constructor; [apply IH|exact IHr].
  - apply Hdict. induction items as [|[k v] r IHr]; constructor;
      [split; apply IH|exact IHr].
  - apply Hother.
Qed.

(** ** The interpreter state along a run of [to_json] *)

Lemma register_grows new : forall mods,
  exists added, register new mods = mods ++ added.
Proof.
  unfold register. induction new as [|m r IH]; intros mods; cbn [fold_left].
  - exists []. now rewrite app_nil_r.
  - destruct (existsb (String.eqb m) mods); [apply IH|].
    destruct (IH (mods ++ [m])) as [added ->].
    exists (m :: added). now rewrite <- app_assoc.
Qed.

Lemma register_keeps new m : forall mods,
  existsb (String.eqb m) mods = true ->
  existsb (String.eqb m) (register new mods) = true.
Proof.
  intros mods H. destruct (register_grows new mods) as [added ->].
  now rewrite existsb_app, H.
Qed.

Lemma register_holds new m : forall mods,
  In m new -> existsb (String.eqb m) (register new mods) = true.
Proof.
  unfold register. induction new as [|m' r IH]; intros mods; [intros []|].
  cbn [fold_left]. intros [->|Hin]; [|now apply IH].
  apply (register_keeps r m).
  destruct (existsb (String.eqb m) mods) eqn:E; [exact E|].
  rewrite existsb_app. cbn [existsb].
  now rewrite String.eqb_refl, orb_true_r.
Qed.

Lemma import_module_twice name st :
  snd (import_module name (snd (import_module name st)))
  = snd (import_module name st).
Proof.
  unfold import_module.
  destruct (existsb (String.eqb name) (sys_modules st)) eqn:E; cbn [snd].
  - now rewrite E.
  - cbn [sys_modules]. rewrite register_holds; [reflexivity|now left].
Qed.

Lemma import_module_grows name st :
  exists added,
    sys_modules (snd (import_module name st)) = sys_modules st ++ added.
Proof.
  unfold import_module.
  destruct (existsb (String.eqb name) (sys_modules st)); cbn [snd sys_modules].
  - exists []. now rewrite app_nil_r.
  - apply register_grows.
Qed.

Lemma reaches_refl st : reaches st st.
Proof. now left. Qed.

Lemma reaches_trans a b c : reaches a b -> reaches b c -> reaches a c.
Proof.
  intros [-> | ->] [-> | ->]; try (now left); try (now right).
  right. apply import_module_twice.
Qed.

(** A loop whose body gives a result that does not depend on the state
    is the loop of the results. *)
Lemma for_eachM_pure {A Acc} (body : Acc -> A -> M Acc)
    (pure : Acc -> A -> result Acc) items :
  Forall (fun x => forall acc st,
            fst (body acc x st) = pure acc x
            /\ reaches st (snd (body acc x st))) items ->
  forall acc st,
    fst (for_eachM body items acc st) = for_each pure items acc
    /\ reaches st (snd (for_eachM body items acc st)).
Proof.
  induction 1 as [|x r Hx _ IH]; intros acc st.
  - rewrite for_eachM_nil, for_each_nil. split; [reflexivity|apply reaches_refl].
  - rewrite for_eachM_cons, for_each_cons.
    destruct (Hx acc st) as [Hres Hst].
    destruct (body acc x st) as [[acc'|e] st1]; cbn [fst snd] in Hres, Hst;
      rewrite <- Hres; cbn [rbind].
    + destruct (IH acc' st1) as [Hres' Hst']. split; [exact Hres'|].
      eapply reaches_trans; eassumption.
    + split; [reflexivity|exact Hst].
Qed.

Lemma seq_loop_pure items :
  Forall (fun x => forall st1 st2,
            fst (to_json x st1) = fst (to_json x st2)
            /\ reaches st1 (snd (to_json x st1))) items ->
  forall st1 st2,
    fst ((out <- for_eachM
                   (fun out value => j <- to_json value ;; ret (push_back out j))
                   items [] ;;
          ret (JArray out)) st1)
    = fst ((out <- for_eachM
                     (fun out value => j <- to_json value ;; ret (push_back out j))
                     items [] ;;
            ret (JArray out)) st2)
    /\ reaches st1
         (snd ((out <- for_eachM
                         (fun out value => j <- to_json value ;; ret (push_back out j))
                         items [] ;;
                ret (JArray out)) st1)).
Proof.
  intros H st1 st2. unfold bind at 1 3 5.
  set (body := fun out value => j <- to_json value ;; ret (push_back out j)).
  set (pure := fun out value => rbind (fst (to_json value st0))
                                  (fun j => OK (push_back out j))).
  assert (Hb : Forall (fun x => forall acc st,
                 fst (body acc x st) = pure acc x
                 /\ reaches st (snd (body acc x st))) items).
  { eapply Forall_impl; [|exact H]. intros x Hx acc st.
    destruct (Hx st st0) as [Hr Hs]. unfold body, pure, bind, ret.
    rewrite <- Hr. destruct (to_json x st) as [[j|e] st']; cbn [fst snd rbind] in *;
      split; auto. }
  destruct (for_eachM_pure body pure items Hb [] st1) as [R1 S1].
  destruct (for_eachM_pure body pure items Hb [] st2) as [R2 _].
  destruct (for_eachM body items [] st1) as [[out1|e1] st1'];
    destruct (for_eachM body items [] st2) as [[out2|e2] st2'];
    cbn [fst snd] in *; unfold ret; cbn [fst snd];
    (split; [congruence|exact S1]).
Qed.

Lemma to_json_pure o :
  forall st, fst (to_json o st) = encoding o
             /\ reaches st (snd (to_json o st)).
Proof.
  assert (H : forall st1 st2, fst (to_json o st1) = fst (to_json o st2)
                              /\ reaches st1 (snd (to_json o st1))).
  2: { intros st. exact (H st st0). }
  induction o using pyobj_nested_ind; intros st1 st2;
    try (split; [reflexivity|apply reaches_refl]).
  - (* int *)
    to_json_tests.
    destruct (try_int64 (PyInt z)); [split; [reflexivity|apply reaches_refl]|].
    destruct (try_uint64 (PyInt z)); [split; [reflexivity|apply reaches_refl]|].
    unfold bind, lift, throw.
    destruct (py_repr (PyInt z)); split; try reflexivity; apply reaches_refl.
  - (* bytes *)
    to_json_tests. unfold bind, lift, ret, import_module.
    destruct (existsb _ (sys_modules st1)) eqn:E1;
      destruct (existsb _ (sys_modules st2)) eqn:E2;
      destruct (bytes_decode (base64_b64encode (PyBytes bs))) as [text|e];
      try destruct (cast_string text);
      cbn [fst snd]; (split; [reflexivity|]);
      unfold reaches, import_module; rewrite E1; cbn [snd]; auto.
  - (* str *)
    to_json_tests. unfold bind, lift, ret.
    destruct (cast_string (PyStr t)); split; try reflexivity; apply reaches_refl.
  - (* tuple *)
    to_json_tests. now apply seq_loop_pure.
  - (* list *)
    to_json_tests. now apply seq_loop_pure.
  - (* dict *)
    to_json_tests. unfold bind at 1 4 7.
    set (body := fun out kv =>
                   j <- to_json (snd kv) ;;
                   key <- lift (py_str (fst kv)) ;;
                   ret (object_set key j out)).
    set (pure := fun out (kv : pyobj * pyobj) =>
                   rbind (fst (to_json (snd kv) st0)) (fun j =>
                   rbind (py_str (fst kv)) (fun key =>
                   OK (object_set key j out)))).
    assert (Hb : Forall (fun x => forall acc st,
                   fst (body acc x st) = pure acc x
                   /\ reaches st (snd (body acc x st))) items).
    { eapply Forall_impl; [|exact H]. intros [k v] [_ Hv] acc st.
      cbn [fst snd] in *.
      destruct (Hv st st0) as [Hr Hs]. unfold body, pure, bind, ret, lift.
      cbn [fst snd]. rewrite <- Hr.
      destruct (to_json v st) as [[j|e] st']; cbn [fst snd rbind] in *;
        [|split; auto].
      destruct (py_str k); cbn [fst snd rbind]; split; auto. }
    destruct (for_eachM_pure body pure items Hb [] st1) as [R1 S1].
    destruct (for_eachM_pure body pure items Hb [] st2) as [R2 _].
    destruct (for_eachM body items [] st1) as [[out1|e1] st1'];
      destruct (for_eachM body items [] st2) as [[out2|e2] st2'];
      cbn [fst snd] in *; unfold ret; cbn [fst snd];
      (split; [congruence|exact S1]).
Qed.

Lemma to_json_split o st : to_json o st = (encoding o, snd (to_json o st)).
Proof.
  destruct (to_json_pure o st) as [H _]. rewrite <- H.
  now destruct (to_json o st).
Qed.

(** X1. The result of [to_json] does not depend on the modules that the
    interpreter it runs in has imported. The run leaves [sys.modules] as it
    was or as one import of [base64] leaves it; it takes nothing out of it,
    and where [base64] is imported already, it leaves it as it was. *)
Theorem to_json_interpreter_effect (o : pyobj) (st st' : interp) :
  fst (to_json o st) = fst (to_json o st')
  /\ (snd (to_json o st) = st
      \/ snd (to_json o st) = snd (import_module "base64" st))
  /\ (exists added,
        sys_modules (snd (to_json o st)) = sys_modules st ++ added)
  /\ (existsb (String.eqb "base64") (sys_modules st) = true ->
      snd (to_json o st) = st).
Proof.
  destruct (to_json_pure o st) as [H1 R1]. destruct (to_json_pure o st') as [H2 _].
  split; [congruence|]. split; [exact R1|]. split.
  - destruct R1 as [-> | ->].
    + exists []. now rewrite app_nil_r.
    + apply import_module_grows.
  - intros E. destruct R1 as [R1|R1]; [exact R1|].
    rewrite R1. unfold import_module. now rewrite E.
Qed.

(** ** The loops, seen from their results *)

Lemma for_each_push_ok {A B} (f : A -> result B) items : forall acc out,
  for_each (fun out x => rbind (f x) (fun j => OK (push_back out j))) items acc
    = OK out
  <-> exists vs, Forall2 (fun x v => f x = OK v) items vs /\ out = acc ++ vs.
Proof.
  induction items as [|x r IH]; intros acc out.
  - rewrite for_each_nil. split.
    + intros [= <-]. exists []. split; [constructor|now rewrite app_nil_r].
    + intros (vs & Hvs & ->). inversion Hvs. now rewrite app_nil_r.
  - rewrite for_each_cons. destruct (f x) as [j|e] eqn:Ex; cbn [rbind].
    + rewrite IH. unfold push_back. split.
      * intros (vs & Hvs & ->). exists (j :: vs).
        split; [constructor; assumption|now rewrite <- app_assoc].
      * intros (vs & Hvs & ->). inversion Hvs as [|? v ? vs' Hv Hr]; subst.
        assert (v = j) by congruence. subst.
        exists vs'. split; [assumption|now rewrite <- app_assoc].
    + split; [discriminate|].
      intros (vs & Hvs & _). inversion Hvs; subst. congruence.
Qed.

Lemma for_each_push_err {A B} (f : A -> result B) pre x post e : forall acc,
  Forall (fun y => exists v, f y = OK v) pre -> f x = Err e ->
  for_each (fun out x => rbind (f x) (fun j => OK (push_back out j)))
    (pre ++ x :: post) acc = Err e.
Proof.
  induction pre as [|y r IH]; intros acc Hpre Hx; cbn [app];
    rewrite for_each_cons.
  - now rewrite Hx.
  - inversion Hpre as [|? ? [v Hv] Hr]; subst. rewrite Hv. cbn [rbind].
    now apply IH.
Qed.

Lemma for_each_set_ok {K K' V V' Acc : Type} (f : V -> result V')
    (g : K -> result K') (set : K' -> V' -> Acc -> Acc)
    items : forall acc out,
  for_each (fun out (kv : K * V) =>
              rbind (f (snd kv)) (fun j =>
              rbind (g (fst kv)) (fun key => OK (set key j out))))
    items acc = OK out
  <-> exists kvs,
        Forall2 (fun kv p => g (fst kv) = OK (fst p) /\ f (snd kv) = OK (snd p))
          items kvs
        /\ out = fold_left (fun o p => set (fst p) (snd p) o) kvs acc.
Proof.
  induction items as [|[k v] r IH]; intros acc out.
  - rewrite for_each_nil. split.
    + intros [= <-]. exists []. split; [constructor|reflexivity].
    + intros (kvs & Hkvs & ->). inversion Hkvs. reflexivity.
  - rewrite for_each_cons. cbn [fst snd].
    destruct (f v) as [j|e] eqn:Ev; cbn [rbind].
    + destruct (g k) as [key|e] eqn:Ek; cbn [rbind].
      * rewrite IH. split.
        -- intros (kvs & Hkvs & ->). exists ((key, j) :: kvs).
           split; [constructor; [split; assumption|assumption]|reflexivity].
        -- intros (kvs & Hkvs & ->).
           inversion Hkvs as [|? [key' j'] ? kvs' [Hk Hv] Hr]; subst.
           cbn [fst snd] in *.
           assert (key' = key) by congruence. assert (j' = j) by congruence.
           subst. exists kvs'. split; [assumption|reflexivity].
      * split; [discriminate|].
        intros (kvs & Hkvs & _). inversion Hkvs as [|? ? ? ? [Hk _] ?]; subst.
        cbn [fst] in Hk. congruence.
    + split; [discriminate|].
      intros (kvs & Hkvs & _). inversion Hkvs as [|? ? ? ? [_ Hv] ?]; subst.
      cbn [snd] in Hv. congruence.
Qed.

(** [to_json] on a sequence and on a mapping, as loops of results. *)
Lemma encoding_seq items :
  encoding (PyList items)
  = rbind (for_each (fun out x => rbind (encoding x)
                                    (fun j => OK (push_back out j))) items [])
          (fun out => OK (JArray out))
  /\ encoding (PyTuple items) = encoding (PyList items).
Proof.
  split; [|reflexivity].
  unfold encoding at 1. to_json_tests. unfold bind at 1.
  set (body := fun out value => j <- to_json value ;; ret (push_back out j)).
  set (pure := fun out x => rbind (encoding x) (fun j => OK (push_back out j))).
  assert (Hb : Forall (fun x => forall acc st,
                 fst (body acc x st) = pure acc x
                 /\ reaches st (snd (body acc x st))) items).
  { apply Forall_forall. intros x _ acc st.
    destruct (to_json_pure x st) as [Hr Hs]. unfold body, pure, bind, ret.
    rewrite <- Hr. destruct (to_json x st) as [[j|e] st']; cbn [fst snd rbind] in *;
      split; auto. }
  destruct (for_eachM_pure body pure items Hb [] st0) as [R _].
  rewrite <- R. now destruct (for_eachM body items [] st0) as [[out|e] st'].
Qed.

Lemma encoding_dict items :
  encoding (PyDict items)
  = rbind (for_each (fun out (kv : pyobj * pyobj) =>
                       rbind (encoding (snd kv)) (fun j =>
                       rbind (py_str (fst kv)) (fun key =>
                       OK (object_set key j out)))) items [])
          (fun out => OK (JObject out)).
Proof.
  unfold encoding at 1. to_json_tests. unfold bind at 1.
  set (body := fun out kv =>
                 j <- to_json (snd kv) ;;
                 key <- lift (py_str (fst kv)) ;;
                 ret (object_set key j out)).
  set (pure := fun out (kv : pyobj * pyobj) =>
                 rbind (encoding (snd kv)) (fun j =>
                 rbind (py_str (fst kv)) (fun key =>
                 OK (object_set key j out)))).
  assert (Hb : Forall (fun x => forall acc st,
                 fst (body acc x st) = pure acc x
                 /\ reaches st (snd (body acc x st))) items).
  { apply Forall_forall. intros [k v] _ acc st. cbn [fst snd].
    destruct (to_json_pure v st) as [Hr Hs].
    unfold body, pure, bind, ret, lift. cbn [fst snd]. rewrite <- Hr.
    destruct (to_json v st) as [[j|e] st']; cbn [fst snd rbind] in *;
      [|split; auto].
    destruct (py_str k); cbn [fst snd rbind]; split; auto. }
  destruct (for_eachM_pure body pure items Hb [] st0) as [R _].
  rewrite <- R. now destruct (for_eachM body items [] st0) as [[out|e] st'].
Qed.

Lemma Forall2_of_Forall {A B} (f : A -> result B) l :
  Forall (fun x => exists v, f x = OK v) l <->
  exists vs, Forall2 (fun x v => f x = OK v) l vs.
Proof.
  split.
  - induction 1 as [|x r [v Hv] _ [vs IH]].
    + exists []. constructor.
    + exists (v :: vs). now constructor.
  - intros [vs H]. induction H; constructor; eauto.
Qed.

(** ** [to_json], kind by kind, as results *)

Lemma encoding_int z :
  encoding (PyInt z)
  = if in_int64 z then OK (JInt64 z)
    else if in_uint64 z then OK (JUInt64 z)
    else if digit_limit_exceeded z then Err ValueError
    else Err (IntegerOutOfRange (out_of_range_msg ++ decimal z)%string).
Proof.
  unfold encoding. to_json_tests. rewrite try_int64_int, try_uint64_int.
  destruct (in_int64 z); [reflexivity|].
  destruct (in_uint64 z); [reflexivity|].
  unfold bind, lift, throw. cbn [py_repr]. unfold int_to_decimal.
  destruct (digit_limit_exceeded z); reflexivity.
Qed.

Lemma encoding_bytes bs : encoding (PyBytes bs) = OK (JString (b64encode bs)).
Proof.
  unfold encoding. to_json_tests. cbn [base64_b64encode bytes_decode].
  unfold bind, lift, ret, py_str_of_string, cast_string, as_utf8.
  rewrite (utf8_decode_ascii _ (b64encode_ascii bs)).
  rewrite (utf8_decode_encode _ _ (utf8_decode_ascii _ (b64encode_ascii bs))).
  reflexivity.
Qed.

Lemma encoding_str t :
  encoding (PyStr t)
  = match utf8_encode t with
    | Some s => OK (JString s)
    | None => Err CastError
    end.
Proof.
  unfold encoding. to_json_tests. unfold bind, lift, ret, cast_string, as_utf8.
  now destruct (utf8_encode t).
Qed.

Lemma py_str_ok_iff k : (exists s, py_str k = OK s) <-> key_has_text k = true.
Proof.
  unfold key_has_text. destruct (py_str k) as [s|e]; split.
  - reflexivity.
  - intros _. now exists s.
  - intros [s Hs]. discriminate.
  - discriminate.
Qed.

Lemma key_has_text_str t : key_has_text (PyStr t) = encodable_text t.
Proof.
  unfold key_has_text. cbn [py_str]. unfold cast_string, as_utf8.
  pose proof (utf8_encode_scalar t) as H.
  destruct (utf8_encode t), (encodable_text t); try reflexivity.
  - now destruct H as [-> _].
  - destruct H as [_ H]. now destruct H.
Qed.

Lemma key_has_text_int z :
  key_has_text (PyInt z) = negb (digit_limit_exceeded z).
Proof.
  unfold key_has_text. cbn [py_str]. unfold int_to_decimal.
  now destruct (digit_limit_exceeded z).
Qed.

Lemma Forall_iff_pointwise {A} (P Q : A -> Prop) l :
  Forall (fun x => P x <-> Q x) l -> (Forall P l <-> Forall Q l).
Proof.
  induction 1 as [|x r Hx _ IH]; [split; constructor|].
  split; intros HF; inversion HF; subst; constructor; tauto.
Qed.

Lemma seq_ok_iff items :
  (exists v, rbind (for_each (fun out x => rbind (encoding x)
                                (fun j => OK (push_back out j))) items [])
               (fun out => OK (JArray out)) = OK v)
  <-> Forall (fun x => exists v, encoding x = OK v) items.
Proof.
  rewrite Forall2_of_Forall. split.
  - intros [v Hv].
    destruct (for_each _ items []) as [out|e] eqn:E; [|discriminate].
    apply for_each_push_ok in E. destruct E as (vs & Hvs & _). eauto.
  - intros [vs Hvs].
    assert (E : for_each (fun out x => rbind (encoding x)
                  (fun j => OK (push_back out j))) items [] = OK ([] ++ vs))
      by (apply for_each_push_ok; eauto).
    rewrite E. eexists; reflexivity.
Qed.

Lemma encoding_ok_iff o : (exists v, encoding o = OK v) <-> encodable o = true.
Proof.
  induction o using pyobj_nested_ind; cbn [encodable];
    try (split; [reflexivity|intros _; eexists; reflexivity]).
  - rewrite encoding_int.
    destruct (in_int64 z); [split; [reflexivity|eexists; reflexivity]|].
    destruct (in_uint64 z); [split; [reflexivity|eexists; reflexivity]|].
    destruct (digit_limit_exceeded z);
      (split; [intros [v Hv]; discriminate|discriminate]).
  - rewrite encoding_bytes. split; [reflexivity|eexists; reflexivity].
  - rewrite encoding_str, <- utf8_encode_scalar.
    destruct (utf8_encode t); split.
    + discriminate.
    + intros _. eexists; reflexivity.
    + intros [v Hv]. discriminate.
    + congruence.
  - destruct (encoding_seq items) as [Hl ->]. rewrite Hl.
    rewrite seq_ok_iff, forallb_forall, <- Forall_forall.
    now apply Forall_iff_pointwise.
  - destruct (encoding_seq items) as [Hl _]. rewrite Hl.
    rewrite seq_ok_iff, forallb_forall, <- Forall_forall.
    now apply Forall_iff_pointwise.
  - rewrite encoding_dict. rewrite forallb_forall, <- Forall_forall. split.
    + intros [v Hv].
      destruct (for_each _ items []) as [out|e] eqn:E; [|discriminate].
      apply for_each_set_ok in E. destruct E as (kvs & Hkvs & _).
      clear Hv. induction Hkvs as [|kv p r kvs' [Hk Hv] _ IH]; [constructor|].
      inversion H as [|? ? [_ Hsnd] Hr]; subst. constructor; [|now apply IH].
      apply andb_true_iff. split.
      * apply py_str_ok_iff. eauto.
      * apply Hsnd. eauto.
    + intros Hall.
      assert (Hk : exists kvs,
                 Forall2 (fun kv p => py_str (fst kv) = OK (fst p)
                                      /\ encoding (snd kv) = OK (snd p)) items kvs).
      { induction Hall as [|kv r Hkv _ IH]; [exists []; constructor|].
        inversion H as [|? ? [_ Hsnd] Hr]; subst.
        apply andb_true_iff in Hkv. destruct Hkv as [Hkey Hval].
        apply py_str_ok_iff in Hkey. destruct Hkey as [s Hs].
        apply Hsnd in Hval. destruct Hval as [v Hv].
        destruct (IH Hr) as [kvs Hkvs].
        exists ((s, v) :: kvs). constructor; [split; assumption|assumption]. }
      destruct Hk as [kvs Hkvs].
      assert (E : for_each (fun out (kv : pyobj * pyobj) =>
                    rbind (encoding (snd kv)) (fun j =>
                    rbind (py_str (fst kv)) (fun key =>
                    OK (object_set key j out)))) items []
                  = OK (fold_left (fun o p => object_set (fst p) (snd p) o) kvs []))
        by (apply for_each_set_ok; eauto).
      rewrite E. eexists; reflexivity.
  - split; [intros [v Hv]; discriminate|discriminate].
Qed.

(** X2. [to_json] takes an object exactly when the object is, all the way
    down, of a supported kind, with every integer in the range of
    [int64_t] or [uint64_t], no lone surrogate in a text, and every key of a
    mapping a key that [str] gives a text for. Such a key is a [str] without
    lone surrogates, an integer whose numeral the interpreter prints,
    [None], [True], [False], or a key of another kind on which [str] does
    not raise. *)
Theorem to_json_succeeds_iff_encodable (o : pyobj) (st : interp) :
  ((exists v st', to_json o st = (OK v, st')) <-> encodable o = true)
  /\ (forall k, key_has_text k = true <-> exists s, py_str k = OK s)
  /\ (forall t, key_has_text (PyStr t) = encodable_text t)
  /\ (forall z, key_has_text (PyInt z) = negb (digit_limit_exceeded z)).
Proof.
  split; [|split; [|split]].
  - rewrite <- encoding_ok_iff. rewrite (to_json_split o st). split.
    + intros (v & st' & [= Hv _]). eauto.
    + intros [v Hv]. rewrite Hv. eauto.
  - intros k. symmetry. apply py_str_ok_iff.
  - exact key_has_text_str.
  - exact key_has_text_int.
Qed.

(** X3. A sequence is encoded as the Array of the encodings of its items,
    in their order, a [tuple] like a [list]; it is encoded only if every
    item is. *)
Theorem to_json_sequence (items : list pyobj) (v : json) (st : interp) :
  (fst (to_json (PyList items) st) = OK v
   <-> exists vs, v = JArray vs
                  /\ Forall2 (fun x j => fst (to_json x st) = OK j) items vs)
  /\ fst (to_json (PyTuple items) st) = fst (to_json (PyList items) st).
Proof.
  destruct (to_json_pure (PyList items) st) as [-> _].
  destruct (to_json_pure (PyTuple items) st) as [-> _].
  destruct (encoding_seq items) as [Hl Ht]. split; [|exact Ht].
  rewrite Hl.
  assert (Hst : forall vs,
    Forall2 (fun x j => fst (to_json x st) = OK j) items vs
    <-> Forall2 (fun x j => encoding x = OK j) items vs).
  { intros vs. split; intros HF; eapply Forall2_impl; try exact HF;
      intros x j Hx; destruct (to_json_pure x st) as [E _]; congruence. }
  split.
  - destruct (for_each _ items []) as [out|e] eqn:E; [|discriminate].
    intros [= <-]. apply for_each_push_ok in E. destruct E as (vs & Hvs & ->).
    exists vs. split; [reflexivity|]. now apply Hst.
  - intros (vs & -> & Hvs). apply Hst in Hvs.
    assert (E : for_each (fun out x => rbind (encoding x)
                  (fun j => OK (push_back out j))) items [] = OK ([] ++ vs))
      by (apply for_each_push_ok; eauto).
    now rewrite E.
Qed.

(** X4. A sequence with an item that [to_json] refuses is refused, with the
    error of the first such item: no part of the Array is given back. *)
Theorem to_json_sequence_error (pre post : list pyobj) (x : pyobj) (e : error)
    (st : interp) :
  Forall (fun y => exists v, fst (to_json y st) = OK v) pre ->
  fst (to_json x st) = Err e ->
  fst (to_json (PyList (pre ++ x :: post)) st) = Err e
  /\ fst (to_json (PyTuple (pre ++ x :: post)) st) = Err e.
Proof.
  intros Hpre Hx.
  destruct (to_json_pure (PyList (pre ++ x :: post)) st) as [-> _].
  destruct (to_json_pure (PyTuple (pre ++ x :: post)) st) as [-> _].
  destruct (encoding_seq (pre ++ x :: post)) as [Hl ->]. rewrite Hl.
  destruct (to_json_pure x st) as [Ex _]. rewrite Ex in Hx.
  rewrite (for_each_push_err encoding pre x post e); [split; reflexivity| |exact Hx].
  eapply Forall_impl; [|exact Hpre]. intros y [v Hv].
  destruct (to_json_pure y st) as [Ey _]. exists v. congruence.
Qed.

(** ** When [from_json] fails *)

Lemma for_each_push_err_inv {A B} (f : A -> result B) items e : forall acc,
  for_each (fun out x => rbind (f x) (fun j => OK (push_back out j))) items acc
    = Err e ->
  exists x, In x items /\ f x = Err e.
Proof.
  induction items as [|x r IH]; intros acc; [discriminate|].
  rewrite for_each_cons. destruct (f x) as [j|e'] eqn:Ex; cbn [rbind].
  - intros H. apply IH in H. destruct H as (y & Hy & He). exists y.
    split; [now right|exact He].
  - intros [= ->]. exists x. split; [now left|exact Ex].
Qed.

Lemma for_each_set_err_inv {K K' V V' Acc : Type} (f : V -> result V')
    (g : K -> result K') (set : K' -> V' -> Acc -> Acc)
    items e : forall acc,
  for_each (fun out (kv : K * V) =>
              rbind (f (snd kv)) (fun j =>
              rbind (g (fst kv)) (fun key => OK (set key j out))))
    items acc = Err e ->
  exists kv, In kv items /\ (f (snd kv) = Err e \/ g (fst kv) = Err e).
Proof.
  induction items as [|[k v] r IH]; intros acc; [discriminate|].
  rewrite for_each_cons. cbn [fst snd].
  destruct (f v) as [j|e'] eqn:Ev; cbn [rbind].
  - destruct (g k) as [key|e'] eqn:Ek; cbn [rbind].
    + intros H. apply IH in H. destruct H as (kv & Hkv & He). exists kv.
      split; [now right|exact He].
    + intros [= ->]. exists (k, v). split; [now left|now right].
  - intros [= ->]. exists (k, v). split; [now left|now left].
Qed.

Lemma from_json_array elems :
  from_json (JArray elems)
  = rbind (for_each (fun obj el => rbind (from_json el)
                                     (fun x => OK (push_back obj x))) elems [])
          (fun obj => OK (PyList obj)).
Proof. reflexivity. Qed.

Lemma from_json_object fields :
  from_json (JObject fields)
  = rbind (for_each (fun obj (kv : string * json) =>
                       rbind (from_json (snd kv)) (fun value =>
                       rbind (decode_text (fst kv)) (fun key =>
                       OK (dict_set_str key value obj)))) fields [])
          (fun obj => OK (PyDict obj)).
Proof. reflexivity. Qed.

Lemma decode_text_ok_iff s : (exists t, decode_text s = OK t) <-> utf8_valid s = true.
Proof.
  unfold decode_text, utf8_valid. destruct (utf8_decode s); split.
  - reflexivity.
  - intros _. eexists; reflexivity.
  - intros [t Ht]. discriminate.
  - discriminate.
Qed.

Lemma from_json_ok_iff v : (exists o, from_json v = OK o) <-> json_texts_ok v = true.
Proof.
  induction v using json_nested_ind; cbn [json_texts_ok];
    try (split; [reflexivity|intros _; eexists; reflexivity]).
  - cbn [from_json is_null is_boolean is_number_integer is_number_unsigned
         is_number_float is_string get_string].
    unfold py_str_of_string, utf8_valid. destruct (utf8_decode s); split.
    + reflexivity.
    + intros _. eexists; reflexivity.
    + intros [o Ho]. discriminate.
    + discriminate.
  - rewrite from_json_array, forallb_forall, <- Forall_forall.
    rewrite <- (Forall_iff_pointwise _ _ _ H), Forall2_of_Forall. split.
    + intros [o Ho].
      destruct (for_each _ elems []) as [out|e] eqn:E; [|discriminate].
      apply for_each_push_ok in E. destruct E as (vs & Hvs & _). eauto.
    + intros [os Hos].
      assert (E : for_each (fun obj el => rbind (from_json el)
                    (fun x => OK (push_back obj x))) elems [] = OK ([] ++ os))
        by (apply for_each_push_ok; eauto).
      rewrite E. eexists; reflexivity.
  - rewrite from_json_object, forallb_forall, <- Forall_forall. split.
    + intros [o Ho].
      destruct (for_each _ fields []) as [out|e] eqn:E; [|discriminate].
      apply for_each_set_ok in E. destruct E as (kvs & Hkvs & _).
      clear Ho. induction Hkvs as [|kv p r kvs' [Hk Hv] _ IH]; [constructor|].
      inversion H as [|? ? Hsnd Hr]; subst. constructor; [|now apply IH].
      apply andb_true_iff. split.
      * apply decode_text_ok_iff. eauto.
      * apply Hsnd. eauto.
    + intros Hall.
      assert (Hk : exists kvs,
                 Forall2 (fun kv p => decode_text (fst kv) = OK (fst p)
                                      /\ from_json (snd kv) = OK (snd p)) fields kvs).
      { induction Hall as [|kv r Hkv _ IH]; [exists []; constructor|].
        inversion H as [|? ? Hsnd Hr]; subst.
        apply andb_true_iff in Hkv. destruct Hkv as [Hkey Hval].
        apply decode_text_ok_iff in Hkey. destruct Hkey as [t Ht].
        apply Hsnd in Hval. destruct Hval as [o Ho].
        destruct (IH Hr) as [kvs Hkvs].
        exists ((t, o) :: kvs). constructor; [split; assumption|assumption]. }
      destruct Hk as [kvs Hkvs].
      assert (E : for_each (fun obj (kv : string * json) =>
                    rbind (from_json (snd kv)) (fun value =>
                    rbind (decode_text (fst kv)) (fun key =>
                    OK (dict_set_str key value obj)))) fields []
                  = OK (fold_left (fun o p => dict_set_str (fst p) (snd p) o) kvs []))
        by (apply for_each_set_ok; eauto).
      rewrite E. eexists; reflexivity.
Qed.

Lemma from_json_error_kind v : forall e, from_json v = Err e -> e = ConstructionFailed.
Proof.
  induction v using json_nested_ind; intros e; try discriminate.
  - cbn [from_json is_null is_boolean is_number_integer is_number_unsigned
         is_number_float is_string get_string].
    unfold py_str_of_string. destruct (utf8_decode s); [discriminate|congruence].
  - rewrite from_json_array.
    destruct (for_each _ elems []) as [out|e'] eqn:E; [discriminate|].
    intros [= ->]. apply for_each_push_err_inv in E.
    destruct E as (x & Hx & He). rewrite Forall_forall in H. eauto.
  - rewrite from_json_object.
    destruct (for_each _ fields []) as [out|e'] eqn:E; [discriminate|].
    intros [= ->]. apply for_each_set_err_inv in E.
    destruct E as (kv & Hkv & [He|He]).
    + rewrite Forall_forall in H. eauto.
    + unfold decode_text in He. destruct (utf8_decode (fst kv)); congruence.
Qed.

(** X11. [from_json] builds an object exactly when every String and every
    key of the value, at any depth, is valid UTF-8; it fails in no other
    way than [py::str] not building a text. *)
Theorem from_json_succeeds_iff_texts (v : json) :
  ((exists o, from_json v = OK o) <-> json_texts_ok v = true)
  /\ (forall e, from_json v = Err e -> e = ConstructionFailed).
Proof. split; [apply from_json_ok_iff|apply from_json_error_kind]. Qed.

(** ** The two containers under a run of insertions *)

Lemma fold_object_set_fresh kvs : forall acc,
  NoDup (map fst (acc ++ kvs)) ->
  fold_left (fun o (p : string * json) => object_set (fst p) (snd p) o) kvs acc
  = acc ++ kvs.
Proof.
  induction kvs as [|[k v] r IH]; intros acc Hnd; cbn [fold_left fst snd].
  - now rewrite app_nil_r.
  - rewrite object_set_fresh.
    + rewrite IH; rewrite <- app_assoc; [reflexivity|exact Hnd].
    + rewrite map_app in Hnd. cbn [map fst] in Hnd.
      apply NoDup_remove_2 in Hnd. intros Hin. apply Hnd.
      apply in_or_app. now left.
Qed.

Lemma object_set_NoDup key j out :
  NoDup (map fst out) -> NoDup (map fst (object_set key j out)).
Proof.
  induction out as [|[k v] r IH]; cbn [object_set map fst]; intros Hnd.
  - constructor; [intros []|constructor].
  - inversion Hnd as [|? ? Hk Hr]; subst.
    destruct (String.eqb_spec k key) as [->|Hne]; cbn [map fst].
    + constructor; assumption.
    + constructor; [|now apply IH].
      rewrite object_set_keys. intros [Heq|Hin]; [congruence|contradiction].
Qed.

Lemma fold_object_set_NoDup kvs : forall acc,
  NoDup (map fst acc) ->
  NoDup (map fst (fold_left (fun o (p : string * json) =>
                               object_set (fst p) (snd p) o) kvs acc)).
Proof.
  induction kvs as [|p r IH]; intros acc Hnd; cbn [fold_left]; [exact Hnd|].
  apply IH. now apply object_set_NoDup.
Qed.

Lemma object_set_In key j out p :
  In p (object_set key j out) -> p = (key, j) \/ In p out.
Proof.
  induction out as [|[k v] r IH]; cbn [object_set].
  - intros [<-|[]]. now left.
  - destruct (String.eqb_spec k key) as [->|Hne].
    + intros [<-|Hin]; [now left|right; now right].
    + intros [<-|Hin]; [right; now left|].
      destruct (IH Hin); [now left|right; now right].
Qed.

Lemma fold_object_set_In kvs : forall acc p,
  In p (fold_left (fun o (q : string * json) => object_set (fst q) (snd q) o)
          kvs acc) ->
  In p kvs \/ In p acc.
Proof.
  induction kvs as [|[k v] r IH]; intros acc p; cbn [fold_left fst snd].
  - now right.
  - intros Hin. destruct (IH _ _ Hin) as [H|H]; [left; now right|].
    destruct (object_set_In _ _ _ _ H) as [->|H']; [left; now left|now right].
Qed.

Lemma object_get_set_same key j out : object_get key (object_set key j out) = Some j.
Proof.
  induction out as [|[k v] r IH]; cbn [object_set object_get].
  - now rewrite String.eqb_refl.
  - destruct (String.eqb k key) eqn:E; cbn [object_get]; rewrite E;
      [reflexivity|exact IH].
Qed.

Lemma object_get_set_other key key' j out :
  key' <> key -> object_get key (object_set key' j out) = object_get key out.
Proof.
  intros Hne. induction out as [|[k v] r IH]; cbn [object_set object_get].
  - destruct (String.eqb_spec key' key); [contradiction|reflexivity].
  - destruct (String.eqb_spec k key') as [->|Hk]; cbn [object_get].
    + destruct (String.eqb_spec key' key); [contradiction|reflexivity].
    + destruct (String.eqb k key); [reflexivity|exact IH].
Qed.

Lemma fold_object_get_other key kvs : forall acc,
  Forall (fun p : string * json => fst p <> key) kvs ->
  object_get key (fold_left (fun o p => object_set (fst p) (snd p) o) kvs acc)
  = object_get key acc.
Proof.
  induction kvs as [|[k v] r IH]; intros acc Hall; cbn [fold_left fst snd];
    [reflexivity|].
  inversion Hall; subst. rewrite IH by assumption.
  now apply object_get_set_other.
Qed.

Lemma fold_left_app_step {A B} (f : A -> B -> A) l1 x l2 acc :
  fold_left f (l1 ++ x :: l2) acc = fold_left f l2 (f (fold_left f l1 acc) x).
Proof. now rewrite fold_left_app. Qed.

Lemma distinct_texts_NoDup l : distinct_texts l = true <-> NoDup l.
Proof.
  induction l as [|t r IH]; cbn [distinct_texts].
  - split; [constructor|reflexivity].
  - rewrite andb_true_iff, negb_true_iff, IH. split.
    + intros [Hx Hr]. constructor; [|assumption]. intros Hin.
      assert (existsb (fun t' => if list_eq_dec Z.eq_dec t t' then true else false) r
              = true); [|congruence].
      apply existsb_exists. exists t. split; [assumption|].
      destruct (list_eq_dec Z.eq_dec t t); congruence.
    + intros Hnd. inversion Hnd; subst. split; [|assumption].
      apply not_true_is_false. intros He. apply existsb_exists in He.
      destruct He as (y & Hy & Heq).
      destruct (list_eq_dec Z.eq_dec t y); [subst; contradiction|discriminate].
Qed.

Lemma fold_dict_set_fresh ps : forall acc ts,
  str_keyed acc ts -> NoDup (ts ++ map fst ps) ->
  fold_left (fun o (p : pytext * pyobj) => dict_set_str (fst p) (snd p) o) ps acc
  = acc ++ map (fun p => (PyStr (fst p), snd p)) ps.
Proof.
  induction ps as [|[t o] r IH]; intros acc ts Hk Hnd; cbn [fold_left map fst snd].
  - now rewrite app_nil_r.
  - cbn [map fst] in Hnd.
    rewrite (dict_set_str_fresh t o acc ts Hk).
    + rewrite (IH _ (ts ++ [t])).
      * now rewrite <- app_assoc.
      * unfold str_keyed in *. rewrite !map_app, Hk. reflexivity.
      * now rewrite <- app_assoc.
    + apply NoDup_remove_2 in Hnd. intros Hin. apply Hnd.
      apply in_or_app. now left.
Qed.

(** ** [to_json] after [from_json], on every structured value *)

Lemma in_int64_to_int64 z : in_int64 (to_int64 z) = true.
Proof.
  unfold in_int64. destruct (to_int64_range z) as [Hlo Hhi].
  apply Z.leb_le in Hlo, Hhi. now rewrite Hlo, Hhi.
Qed.

Lemma to_int64_small z : in_int64 z = true -> to_int64 z = z.
Proof.
  unfold in_int64, int64_min, int64_max, to_int64. intros H.
  apply andb_prop in H. destruct H as [Hlo Hhi].
  apply Z.leb_le in Hlo, Hhi. rewrite Z.mod_small; lia.
Qed.

Lemma decoded_keys_NoDup keys ts :
  Forall2 (fun k t => utf8_decode k = Some t) keys ts -> NoDup keys -> NoDup ts.
Proof.
  induction 1 as [|k t ks ts' Hk Hr IH]; intros Hnd; [constructor|].
  inversion Hnd; subst. constructor; [|now apply IH].
  eapply decoded_key_fresh; eassumption.
Qed.

(** What the general round trip says of one value and the object it
    decodes to. *)
Lemma decode_encode v :
  json_wf v = true ->
  exists o, from_json v = OK o /\ encoding o = OK (as_signed v).
Proof.
  induction v using json_nested_ind; intros Hwf; cbn [json_wf] in Hwf.
  - exists PyNone. split; reflexivity.
  - exists (PyBool b). split; reflexivity.
  - exists (PyInt z). split; [reflexivity|]. rewrite encoding_int.
    now rewrite Hwf.
  - exists (PyInt (to_int64 u)). split; [reflexivity|]. rewrite encoding_int.
    now rewrite in_int64_to_int64.
  - exists (PyFloat d). split; reflexivity.
  - unfold utf8_valid in Hwf. destruct (utf8_decode s) as [t|] eqn:Hd; [|discriminate].
    exists (PyStr t). split.
    + cbn [from_json is_null is_boolean is_number_integer is_number_unsigned
           is_number_float is_string get_string].
      unfold py_str_of_string. now rewrite Hd.
    + rewrite encoding_str. now rewrite (utf8_decode_encode _ _ Hd).
  - rewrite forallb_forall in Hwf.
    assert (Hos : exists os, Forall2 (fun x o => from_json x = OK o) elems os
                    /\ Forall2 (fun o j => encoding o = OK j) os (map as_signed elems)).
    { induction H as [|x r Hx _ IH]; [exists []; split; constructor|].
      destruct (Hx (Hwf x (or_introl eq_refl))) as (o & Ho & He).
      destruct IH as (os & H1 & H2); [intros y Hy; apply Hwf; now right|].
      exists (o :: os). split; constructor; assumption. }
    destruct Hos as (os & H1 & H2). exists (PyList os). split.
    + rewrite from_json_array.
      assert (E : for_each (fun obj el => rbind (from_json el)
                    (fun x => OK (push_back obj x))) elems [] = OK ([] ++ os))
        by (apply for_each_push_ok; eauto).
      now rewrite E.
    + destruct (encoding_seq os) as [-> _].
      assert (E : for_each (fun out x => rbind (encoding x)
                    (fun j => OK (push_back out j))) os []
                  = OK ([] ++ map as_signed elems))
        by (apply for_each_push_ok; eauto).
      now rewrite E.
  - apply andb_prop in Hwf. destruct Hwf as [Hnd Hwf].
    apply nodupb_NoDup in Hnd. rewrite forallb_forall in Hwf.
    assert (Hps : exists ps : list (pytext * pyobj),
              Forall2 (fun kv p => decode_text (fst kv) = OK (fst p)
                                   /\ from_json (snd kv) = OK (snd p)) fields ps
              /\ Forall2 (fun (item : pyobj * pyobj) (q : string * json) =>
                            py_str (fst item) = OK (fst q)
                            /\ encoding (snd item) = OK (snd q))
                   (map (fun p => (PyStr (fst p), snd p)) ps)
                   (map (fun kv => (fst kv, as_signed (snd kv))) fields)
              /\ Forall2 (fun k t => utf8_decode k = Some t)
                   (map fst fields) (map fst ps)).
    { clear Hnd. induction H as [|[k v] r Hx _ IH];
        [exists []; repeat split; constructor|].
      pose proof (Hwf (k, v) (or_introl eq_refl)) as Hkv.
      apply andb_prop in Hkv. cbn [fst snd] in Hkv. destruct Hkv as [Hk Hv].
      destruct (Hx Hv) as (o & Ho & He).
      unfold utf8_valid in Hk. destruct (utf8_decode k) as [t|] eqn:Hd; [|discriminate].
      destruct IH as (ps & H1 & H2 & H3); [intros y Hy; apply Hwf; now right|].
      exists ((t, o) :: ps). cbn [map fst snd]. repeat split.
      - constructor; [|assumption]. cbn [fst snd]. split; [|assumption].
        unfold decode_text. now rewrite Hd.
      - constructor; [|assumption]. cbn [fst snd py_str]. split; [|assumption].
        unfold cast_string, as_utf8. now rewrite (utf8_decode_encode _ _ Hd).
      - constructor; assumption. }
    destruct Hps as (ps & H1 & H2 & H3).
    pose proof (decoded_keys_NoDup _ _ H3 Hnd) as Hts.
    exists (PyDict (map (fun p => (PyStr (fst p), snd p)) ps)). split.
    + rewrite from_json_object.
      assert (E : for_each (fun obj (kv : string * json) =>
                    rbind (from_json (snd kv)) (fun value =>
                    rbind (decode_text (fst kv)) (fun key =>
                    OK (dict_set_str key value obj)))) fields []
                  = OK (fold_left (fun o p => dict_set_str (fst p) (snd p) o) ps []))
        by (apply for_each_set_ok; eauto).
      rewrite E. cbn [rbind].
      rewrite (fold_dict_set_fresh ps [] []); [reflexivity|reflexivity|exact Hts].
    + rewrite encoding_dict.
      assert (E : for_each (fun out (kv : pyobj * pyobj) =>
                    rbind (encoding (snd kv)) (fun j =>
                    rbind (py_str (fst kv)) (fun key =>
                    OK (object_set key j out))))
                    (map (fun p => (PyStr (fst p), snd p)) ps) []
                  = OK (fold_left (fun o p => object_set (fst p) (snd p) o)
                          (map (fun kv => (fst kv, as_signed (snd kv))) fields) []))
        by (apply for_each_set_ok; eauto).
      rewrite E. cbn [rbind as_signed].
      rewrite fold_object_set_fresh; [reflexivity|].
      cbn [app]. rewrite map_map. cbn [fst]. exact Hnd.
Qed.

(** X7. Encoding what a structured value decodes to gives the value back with
    every unsigned number turned into the signed number of the same 64
    bits, and nothing else changed: values without unsigned numbers come
    back as they were, [UInt64 5] comes back as [Int64 5]. *)
Theorem to_json_after_from_json (v : json) (st : interp) :
  json_wf v = true ->
  exists o, from_json v = OK o /\ fst (to_json o st) = OK (as_signed v).
Proof.
  intros Hwf. destruct (decode_encode v Hwf) as (o & Ho & He).
  exists o. split; [exact Ho|]. destruct (to_json_pure o st) as [-> _]. exact He.
Qed.

(** ** [from_json] after [to_json] *)

Lemma encoded_keys_NoDup ts ks :
  Forall2 (fun t k => utf8_encode t = Some k) ts ks -> NoDup ts -> NoDup ks.
Proof.
  induction 1 as [|t k ts' ks' Hk Hr IH]; intros Hnd; [constructor|].
  inversion Hnd as [|? ? Hnin Hnd']; subst. constructor; [|now apply IH].
  intros Hin. apply Hnin. clear IH Hnd Hnd' Hnin.
  induction Hr as [|t' k' ts'' ks'' Hk' _ IH]; [contradiction|].
  destruct Hin as [->|Hin]; [left|right; now apply IH].
  eapply utf8_encode_inj; eassumption.
Qed.

Lemma decode_seq items :
  Forall (fun o => text_keyed o = true ->
                   forall v, encoding o = OK v -> from_json v = OK (decoded_form o))
    items ->
  forallb text_keyed items = true ->
  forall v, encoding (PyList items) = OK v ->
            from_json v = OK (PyList (map decoded_form items)).
Proof.
  intros H Hkeys v. destruct (encoding_seq items) as [-> _].
  destruct (for_each _ items []) as [out|e] eqn:E; [|discriminate].
  intros [= <-]. apply for_each_push_ok in E. destruct E as (vs & Hvs & ->).
  rewrite forallb_forall in Hkeys. rewrite from_json_array. cbn [app].
  assert (E : for_each (fun obj el => rbind (from_json el)
                (fun x => OK (push_back obj x))) vs []
              = OK ([] ++ map decoded_form items)).
  { apply for_each_push_ok. eexists. split; [|reflexivity].
    induction Hvs as [|x j r vs' Hx _ IH]; [constructor|].
    inversion H as [|? ? Hhead Htail]; subst. cbn [map]. constructor.
    - apply Hhead; [apply Hkeys; now left|exact Hx].
    - apply IH; [assumption|]. intros y Hy. apply Hkeys. now right. }
  now rewrite E.
Qed.

Lemma encode_decode o :
  text_keyed o = true ->
  forall v, encoding o = OK v -> from_json v = OK (decoded_form o).
Proof.
  induction o using pyobj_nested_ind; intros Hkeys v; cbn [text_keyed] in Hkeys.
  - intros [= <-]. reflexivity.
  - intros [= <-]. reflexivity.
  - rewrite encoding_int. cbn [decoded_form].
    destruct (in_int64 z) eqn:E1.
    { intros [= <-]. now rewrite to_int64_small. }
    destruct (in_uint64 z);
      [|destruct (digit_limit_exceeded z); discriminate].
    intros [= <-]. reflexivity.
  - intros [= <-]. reflexivity.
  - rewrite encoding_bytes. intros [= <-].
    cbn [from_json is_null is_boolean is_number_integer is_number_unsigned
         is_number_float is_string get_string decoded_form].
    unfold py_str_of_string.
    now rewrite (utf8_decode_ascii _ (b64encode_ascii bs)).
  - rewrite encoding_str. destruct (utf8_encode t) as [s|] eqn:E; [|discriminate].
    intros [= <-].
    cbn [from_json is_null is_boolean is_number_integer is_number_unsigned
         is_number_float is_string get_string decoded_form].
    unfold py_str_of_string. now rewrite (utf8_encode_decode _ _ E).
  - destruct (encoding_seq items) as [_ ->]. now apply decode_seq.
  - now apply decode_seq.
  - rewrite encoding_dict.
    destruct (for_each _ items []) as [out|e] eqn:E; [|discriminate].
    intros [= <-]. apply for_each_set_ok in E. destruct E as (kvs & Hkvs & ->).
    apply andb_prop in Hkeys. destruct Hkeys as [Hstr Hdist].
    rewrite forallb_forall in Hstr. apply distinct_texts_NoDup in Hdist.
    assert (Hps : Forall2 (fun t k => utf8_encode t = Some k)
                    (map (fun kv => key_text (fst kv)) items) (map fst kvs)
                  /\ Forall2 (fun (q : string * json) (p : pytext * pyobj) =>
                                decode_text (fst q) = OK (fst p)
                                /\ from_json (snd q) = OK (snd p))
                       kvs
                       (map (fun kv => (key_text (fst kv), decoded_form (snd kv)))
                          items)
                  /\ map (fun p : pytext * pyobj => (PyStr (fst p), snd p))
                       (map (fun kv => (key_text (fst kv), decoded_form (snd kv)))
                          items)
                     = map (fun kv => (fst kv, decoded_form (snd kv))) items).
    { clear Hdist. induction Hkvs as [|[k o] [s j] r kvs' [Hk Hv] _ IH];
        [repeat split; constructor|].
      cbn [fst snd] in Hk, Hv. inversion H as [|? ? [_ Hsnd] Hr]; subst.
      cbn [snd] in Hsnd.
      pose proof (Hstr (k, o) (or_introl eq_refl)) as Hko.
      apply andb_prop in Hko. cbn [fst snd] in Hko. destruct Hko as [Hisstr Hok].
      destruct k; try discriminate. cbn [py_str] in Hk.
      unfold cast_string, as_utf8 in Hk.
      destruct (utf8_encode t) as [s'|] eqn:Et; [|discriminate].
      injection Hk as ->.
      destruct IH as (I1 & I2 & I3); [assumption|intros y Hy; apply Hstr; now right|].
      cbn [map fst snd key_text]. repeat split.
      - constructor; assumption.
      - constructor; [|assumption]. cbn [fst snd]. split.
        + unfold decode_text. now rewrite (utf8_encode_decode _ _ Et).
        + now apply Hsnd.
      - now rewrite I3. }
    destruct Hps as (P1 & P2 & P3).
    pose proof (encoded_keys_NoDup _ _ P1 Hdist) as Hnd.
    cbn [rbind]. rewrite fold_object_set_fresh by exact Hnd. cbn [app].
    rewrite from_json_object.
    assert (E : for_each (fun obj (kv : string * json) =>
                  rbind (from_json (snd kv)) (fun value =>
                  rbind (decode_text (fst kv)) (fun key =>
                  OK (dict_set_str key value obj)))) kvs []
                = OK (fold_left (fun o p => dict_set_str (fst p) (snd p) o)
                        (map (fun kv => (key_text (fst kv), decoded_form (snd kv)))
                           items) []))
      by (apply for_each_set_ok; eauto).
    rewrite E. cbn [rbind decoded_form].
    rewrite (fold_dict_set_fresh _ [] []); [|reflexivity|].
    + cbn [app]. now rewrite P3.
    + cbn [app]. rewrite map_map. cbn [fst]. exact Hdist.
  - discriminate.
Qed.

(** X8. Decoding what [to_json] gave for an object whose mappings are keyed
    by distinct texts never fails, and gives the object back but for three
    things: a [tuple] comes back as a [list], a [bytes] as the text of its
    base64 form, and an integer from [2^63] up as that integer minus
    [2^64]. *)
Theorem from_json_after_to_json (o : pyobj) (v : json) (st : interp) :
  text_keyed o = true -> fst (to_json o st) = OK v ->
  from_json v = OK (decoded_form o).
Proof.
  intros Hk Hv. destruct (to_json_pure o st) as [E _]. rewrite E in Hv.
  now apply encode_decode.
Qed.

(** ** What [to_json] gives is a structured value *)

Lemma ascii_only_valid s : ascii_only s -> utf8_valid s = true.
Proof. intros H. unfold utf8_valid. now rewrite (utf8_decode_ascii _ H). Qed.

Lemma string_of_uint_ascii d : ascii_only (NilEmpty.string_of_uint d).
Proof.
  unfold ascii_only.
  induction d; cbn [NilEmpty.string_of_uint list_ascii_of_string];
    constructor; try assumption; vm_compute; reflexivity.
Qed.

Lemma decimal_ascii z : ascii_only (decimal z).
Proof.
  unfold decimal, NilZero.string_of_int, NilZero.string_of_uint.
  destruct (Z.to_int z) as [d|d]; destruct d;
    try apply string_of_uint_ascii;
    try (unfold ascii_only; cbn [list_ascii_of_string]; constructor;
         [vm_compute; reflexivity|]);
    try apply string_of_uint_ascii;
    try (unfold ascii_only; cbn [list_ascii_of_string]; repeat constructor;
         vm_compute; reflexivity).
Qed.

Lemma json_wf_texts_ok v : json_wf v = true -> json_texts_ok v = true.
Proof.
  induction v using json_nested_ind; cbn [json_wf json_texts_ok]; auto.
  - rewrite !forallb_forall. intros Hwf x Hx. rewrite Forall_forall in H. auto.
  - rewrite andb_true_iff, !forallb_forall. intros [_ Hwf] kv Hkv.
    specialize (Hwf kv Hkv). apply andb_prop in Hwf. destruct Hwf as [Hk Hv].
    rewrite Hk. cbn [andb]. rewrite Forall_forall in H. auto.
Qed.

Section PrintedTexts.

(** What the runtime prints is text: where [str] gives a string, the
    string is valid UTF-8. *)
Hypothesis str_rt_valid : forall o s, str_rt o = OK s -> utf8_valid s = true.

Lemma py_str_valid k s : py_str k = OK s -> utf8_valid s = true.
Proof.
  destruct k; cbn [py_str]; try apply str_rt_valid;
    try (intros [= <-]; reflexivity).
  - destruct b; intros [= <-]; reflexivity.
  - unfold int_to_decimal. destruct (digit_limit_exceeded z); [discriminate|].
    intros [= <-]. apply ascii_only_valid, decimal_ascii.
  - unfold cast_string, as_utf8. destruct (utf8_encode t) as [s'|] eqn:E;
      [|discriminate].
    intros [= <-]. unfold utf8_valid. now rewrite (utf8_encode_decode _ _ E).
Qed.

Lemma seq_wf items :
  Forall (fun o => forall v, encoding o = OK v -> json_wf v = true) items ->
  forall v, encoding (PyList items) = OK v -> json_wf v = true.
Proof.
  intros H v. destruct (encoding_seq items) as [-> _].
  destruct (for_each _ items []) as [out|e] eqn:E; [|discriminate].
  intros [= <-]. apply for_each_push_ok in E. destruct E as (vs & Hvs & ->).
  cbn [json_wf app]. apply forallb_forall. apply Forall_forall.
  induction Hvs as [|x j r vs' Hx _ IH]; [constructor|].
  inversion H; subst. constructor; auto.
Qed.

Lemma encoding_wf o : forall v, encoding o = OK v -> json_wf v = true.
Proof.
  induction o using pyobj_nested_ind; intros v.
  - intros [= <-]. reflexivity.
  - intros [= <-]. reflexivity.
  - rewrite encoding_int. destruct (in_int64 z) eqn:E1; [intros [= <-]; exact E1|].
    destruct (in_uint64 z) eqn:E2; [intros [= <-]; exact E2|].
    destruct (digit_limit_exceeded z); discriminate.
  - intros [= <-]. reflexivity.
  - rewrite encoding_bytes. intros [= <-]. cbn [json_wf].
    apply ascii_only_valid, b64encode_ascii.
  - rewrite encoding_str. destruct (utf8_encode t) as [s|] eqn:E; [|discriminate].
    intros [= <-]. cbn [json_wf]. unfold utf8_valid.
    now rewrite (utf8_encode_decode _ _ E).
  - destruct (encoding_seq items) as [_ ->]. now apply seq_wf.
  - now apply seq_wf.
  - rewrite encoding_dict.
    destruct (for_each _ items []) as [out|e] eqn:E; [|discriminate].
    intros [= <-]. apply for_each_set_ok in E. destruct E as (kvs & Hkvs & ->).
    cbn [json_wf]. apply andb_true_iff. split.
    + apply nodupb_NoDup. apply fold_object_set_NoDup. constructor.
    + apply forallb_forall. intros p Hp.
      apply fold_object_set_In in Hp. destruct Hp as [Hp|[]].
      induction Hkvs as [|[k o] q r kvs' [Hk Hv] _ IH]; [contradiction|].
      inversion H as [|? ? [_ Hsnd] Hr]; subst. cbn [fst snd] in *.
      destruct Hp as [->|Hp]; [|now apply IH].
      apply andb_true_iff. split; [eapply py_str_valid; eassumption|now apply Hsnd].
  - discriminate.
Qed.

(** X6. Whatever [to_json] gives is a structured value: its numbers fit
    their 64 bits, its objects have each key once, its Strings and keys
    are valid UTF-8; and [from_json] decodes it. *)
Theorem to_json_output_decodes (o : pyobj) (v : json) (st : interp) :
  fst (to_json o st) = OK v ->
  json_wf v = true /\ exists o', from_json v = OK o'.
Proof.
  intros Hv. destruct (to_json_pure o st) as [E _]. rewrite E in Hv.
  pose proof (encoding_wf o v Hv) as Hwf. split; [exact Hwf|].
  apply from_json_ok_iff. now apply json_wf_texts_ok.
Qed.

End PrintedTexts.

(** ** What the round trips lose *)

(** X9. An integer from [2^63] to [2^64 - 1] is encoded, as a [UInt64], and
    decoding that gives the integer minus [2^64], a negative number. *)
Theorem integer_wraps_through_round_trip (z : Z) (st : interp) :
  int64_max < z <= uint64_max ->
  exists v, fst (to_json (PyInt z) st) = OK v
            /\ from_json v = OK (PyInt (z - 2 ^ 64))
            /\ z - 2 ^ 64 < 0.
Proof.
  unfold int64_max, uint64_max. intros Hz. exists (JUInt64 z).
  destruct (to_json_pure (PyInt z) st) as [-> _]. rewrite encoding_int.
  unfold in_int64, in_uint64, int64_min, int64_max, uint64_max.
  destruct (Z.leb_spec z (2 ^ 63 - 1)); [lia|]. rewrite andb_false_r.
  destruct (Z.leb_spec 0 z); [|lia]. destruct (Z.leb_spec z (2 ^ 64 - 1)); [|lia].
  split; [reflexivity|]. split; [|lia].
  cbn [from_json is_null is_boolean is_number_integer get_number_integer].
  unfold to_int64.
  replace (z + 2 ^ 63) with ((z - 2 ^ 63) + 1 * 2 ^ 64) by lia.
  rewrite Z.mod_add by lia. rewrite Z.mod_small by lia.
  do 2 f_equal. lia.
Qed.

(** X10. A [bytes] and the [str] that spells its base64 form are encoded
    alike: nothing in the String tells which of the two it was. *)
Theorem bytes_encoded_as_their_base64_text (bs : string) (st : interp) :
  fst (to_json (PyBytes bs) st)
  = fst (to_json (PyStr (text_of (b64encode bs))) st).
Proof.
  destruct (to_json_pure (PyBytes bs) st) as [-> _].
  destruct (to_json_pure (PyStr (text_of (b64encode bs))) st) as [-> _].
  rewrite encoding_bytes, encoding_str.
  now rewrite (utf8_decode_encode _ _ (utf8_decode_ascii _ (b64encode_ascii bs))).
Qed.

(** X5. In the Object of a mapping each key is there once, and the field of
    a key holds the encoding of the last item whose key has that text:
    where two keys of the mapping have the same text, the later value
    wins. *)
Theorem to_json_dict_last_wins (items1 items2 : list (pyobj * pyobj))
    (key value : pyobj) (k : string) (j : json) (fields : list (string * json))
    (st : interp) :
  py_str key = OK k -> fst (to_json value st) = OK j ->
  Forall (fun kv => py_str (fst kv) <> OK k) items2 ->
  fst (to_json (PyDict (items1 ++ (key, value) :: items2)) st)
    = OK (JObject fields) ->
  object_get k fields = Some j /\ NoDup (map fst fields).
Proof.
  intros Hk Hj Hrest.
  destruct (to_json_pure value st) as [Ev _]. rewrite Ev in Hj.
  destruct (to_json_pure (PyDict (items1 ++ (key, value) :: items2)) st) as [-> _].
  rewrite encoding_dict.
  destruct (for_each _ _ []) as [out|e] eqn:E; [|discriminate].
  intros [= <-]. apply for_each_set_ok in E. destruct E as (kvs & Hkvs & ->).
  split; [|apply fold_object_set_NoDup; constructor].
  apply Forall2_app_inv_l in Hkvs.
  destruct Hkvs as (kvs1 & kvs' & H1 & H2 & ->).
  inversion H2 as [|? [k' j'] ? kvs2 [Hk' Hj'] H3]; subst.
  cbn [fst snd] in Hk', Hj'.
  assert (k' = k) by congruence. assert (j' = j) by congruence. subst.
  rewrite fold_left_app_step. cbn [fst snd].
  rewrite fold_object_get_other; [apply object_get_set_same|].
  clear H1 H2. induction H3 as [|kv p r kvs2' [Hp _] _ IH]; [constructor|].
  inversion Hrest; subst. constructor; [|now apply IH].
  intros Heq. rewrite Heq in Hp. contradiction.
Qed.

(** ** [vineyard_add_doc], call by call *)

Lemma doc_buffer_cases doc :
  (unencodable_text doc = true /\ doc_buffer doc = Err InvalidText)
  \/ (unencodable_text doc = false /\ exists b, doc_buffer doc = OK b).
Proof.
  unfold unencodable_text, doc_buffer.
  destruct (isinstance_str doc); cbn [andb].
  - destruct (as_utf8 doc); [right|left]; split; eauto.
  - right. split; eauto.
Qed.

Lemma add_doc_on_documented obj doc :
  documented obj = true ->
  vineyard_add_doc obj doc
  = (Err (if unencodable_text doc then InvalidText else already_documented obj),
     obj).
Proof.
  intros Hd. unfold vineyard_add_doc.
  destruct (doc_buffer_cases doc) as [[-> ->]|[-> [[doc_str doc_len] ->]]];
    [reflexivity|].
  destruct obj; cbn [documented] in Hd; now rewrite Hd.
Qed.

Lemma add_docs_on_documented obj docs :
  documented obj = true ->
  add_docs obj docs
  = (map (fun d => Err (if unencodable_text d then InvalidText
                        else already_documented obj)) docs,
     obj).
Proof.
  intros Hd. induction docs as [|d r IH]; cbn [add_docs map]; [reflexivity|].
  now rewrite (add_doc_on_documented obj d Hd), IH.
Qed.

Lemma add_doc_error_same obj doc e obj' :
  vineyard_add_doc obj doc = (Err e, obj') -> e <> SystemError -> obj' = obj.
Proof.
  unfold vineyard_add_doc.
  destruct (doc_buffer doc) as [[doc_str doc_len]|e']; [|now intros [= _ <-]].
  destruct obj as [m|m|m|g|t|o].
  1-3: destruct (nonempty_c_str (ml_doc m)); [now intros [= _ <-]|discriminate].
  - destruct (nonempty_c_str (gs_doc g)); [now intros [= _ <-]|discriminate].
  - destruct (nonempty_c_str (tp_doc t)); [now intros [= _ <-]|discriminate].
  - destruct (has_docstring (doc_attr o)); [now intros [= _ <-]|].
    destruct (doc_settable o); [|now intros [= _ <-]].
    destruct (doc_attr o); [discriminate|]. intros [= <- _]. congruence.
Qed.

(** X12. A call touches nothing but the documentation slot: the kind of the
    target, its name and whether it takes assignments stay. A call that
    fails leaves the slot as it was too, but for the one that ends in
    [SystemError]: that one has written the payload into the [__doc__] of an
    object that had none to look up. *)
Theorem add_doc_frame (obj : target) (doc : pyobj) :
  without_doc (snd (vineyard_add_doc obj doc)) = without_doc obj
  /\ (forall e, fst (vineyard_add_doc obj doc) = Err e -> e <> SystemError ->
                snd (vineyard_add_doc obj doc) = obj)
  /\ (fst (vineyard_add_doc obj doc) = Err SystemError ->
      exists o, obj = Object o /\ doc_attr o = None
                /\ snd (vineyard_add_doc obj doc)
                   = Object {| doc_attr := Some doc;
                               doc_settable := doc_settable o |}).
Proof.
  split; [|split].
  - unfold vineyard_add_doc.
    destruct (doc_buffer doc) as [[doc_str doc_len]|e']; [|reflexivity].
    destruct obj as [m|m|m|g|t|o].
    1-3: destruct (nonempty_c_str (ml_doc m)); reflexivity.
    + destruct (nonempty_c_str (gs_doc g)); reflexivity.
    + destruct (nonempty_c_str (tp_doc t)); reflexivity.
    + destruct (has_docstring (doc_attr o)); [reflexivity|].
      destruct (doc_settable o) eqn:E; [|reflexivity].
      destruct (doc_attr o); cbn [snd without_doc doc_settable]; now rewrite E.
  - intros e He Hne. destruct (vineyard_add_doc obj doc) as [r obj'] eqn:E.
    cbn [fst snd] in *. subst r. eapply add_doc_error_same; eassumption.
  - unfold vineyard_add_doc.
    destruct (doc_buffer_cases doc) as [[_ ->]|[_ [[doc_str doc_len] ->]]];
      [discriminate|].
    destruct obj as [m|m|m|g|t|o].
    1-3: destruct (nonempty_c_str (ml_doc m)); discriminate.
    + destruct (nonempty_c_str (gs_doc g)); discriminate.
    + destruct (nonempty_c_str (tp_doc t)); discriminate.
    + destruct (has_docstring (doc_attr o)); [discriminate|].
      destruct (doc_settable o) eqn:Es; [|discriminate].
      destruct (doc_attr o) eqn:Ea; [discriminate|]. intros _.
      exists o. rewrite Es. repeat split. exact Ea.
Qed.

(** X13. Once the slot holds a docstring that is not empty, no call changes
    the target, and what each call of a run answers is decided by its
    payload alone: a text that has no UTF-8 form is refused with
    [InvalidText], every other payload with the [AlreadyDocumented] that
    names the target. *)
Theorem add_doc_documented_is_final (obj : target) (docs : list pyobj) :
  documented obj = true ->
  add_docs obj docs
  = (map (fun d => Err (if unencodable_text d then InvalidText
                        else already_documented obj)) docs,
     obj).
Proof. apply add_docs_on_documented. Qed.

Lemma substring_whole s : String.substring 0 (String.length s) s = s.
Proof. induction s as [|c r IH]; simpl; [reflexivity|now rewrite IH]. Qed.

(** What [c_str] gives does not start with a NUL. *)
Lemma nonempty_c_str_c_str s :
  nonempty_c_str (Some (c_str s)) = negb (String.eqb (c_str s) EmptyString).
Proof.
  destruct s as [|c r]; cbn [c_str]; [reflexivity|].
  destruct (Ascii.eqb c NUL) eqn:E; [reflexivity|].
  cbn [nonempty_c_str String.eqb]. now rewrite E.
Qed.


(** X14. On a target of one of the five known kinds whose slot holds no
    docstring, a call with a [bytes] or a text succeeds and the slot reads
    the payload up to its first NUL byte. So the target counts as
    documented afterwards exactly when the payload neither is empty nor
    starts with a NUL. *)
Theorem add_doc_writes_c_string (obj : target) (doc : pyobj) (s : string) :
  known_kind obj = true -> documented obj = false -> payload_of s doc ->
  exists obj', vineyard_add_doc obj doc = (OK tt, obj')
               /\ doc_text obj' = Some (c_str s)
               /\ documented obj' = negb (String.eqb (c_str s) EmptyString).
Proof.
  intros Hk Hd Hp. unfold vineyard_add_doc.
  rewrite (doc_buffer_payload _ _ Hp). unfold strndup. rewrite substring_whole.
  destruct obj as [m|m|m|g|t|o]; try discriminate; cbn [documented] in Hd;
    rewrite Hd; eexists; (split; [reflexivity|]);
    cbn [doc_text documented set_ml_doc ml_doc gs_doc tp_doc];
    (split; [reflexivity|]); apply nonempty_c_str_c_str.
Qed.


(** Settles the equivalences between an outcome and the tests that lead
    to it, once the tests are decided. *)
Ltac outcome_cases :=
  repeat split; intros;
  repeat match goal with
         | H : _ /\ _ |- _ => destruct H
         | H : exists _, _ |- _ => destruct H
         end;
  try discriminate; try congruence; eauto.

(** X16. A call has one of five outcomes, decided in this order: a text with
    no UTF-8 form is refused as [InvalidText] whatever the target; else a
    documented target refuses with the [AlreadyDocumented] that names it;
    else an object of no known kind that takes no assignment refuses with
    [AttributeNotSettable]; else the slot is written, and the call ends in
    [SystemError] on an object that had no [__doc__] to look up, and
    succeeds on any other target. *)
Theorem add_doc_outcome (obj : target) (doc : pyobj) :
  (fst (vineyard_add_doc obj doc) = Err InvalidText
   <-> unencodable_text doc = true)
  /\ ((exists what name,
         fst (vineyard_add_doc obj doc) = Err (AlreadyDocumented what name))
      <-> unencodable_text doc = false /\ documented obj = true)
  /\ (forall what name,
        fst (vineyard_add_doc obj doc) = Err (AlreadyDocumented what name) ->
        AlreadyDocumented what name = already_documented obj)
  /\ (fst (vineyard_add_doc obj doc) = Err AttributeNotSettable
      <-> unencodable_text doc = false /\ documented obj = false
          /\ documentable obj = false)
  /\ (fst (vineyard_add_doc obj doc) = Err SystemError
      <-> unencodable_text doc = false /\ documented obj = false
          /\ documentable obj = true /\ missing_attribute obj = true)
  /\ (fst (vineyard_add_doc obj doc) = OK tt
      <-> unencodable_text doc = false /\ documented obj = false
          /\ documentable obj = true /\ missing_attribute obj = false).
Proof.
  unfold vineyard_add_doc.
  destruct (doc_buffer_cases doc) as [[Hu ->]|[Hu [[doc_str doc_len] ->]]];
    rewrite Hu; [cbn [fst]; outcome_cases|].
  destruct obj as [m|m|m|g|t|o];
    cbn [documented documentable missing_attribute already_documented].
  1-3: destruct (nonempty_c_str (ml_doc m)); cbn [fst]; outcome_cases.
  - destruct (nonempty_c_str (gs_doc g)); cbn [fst]; outcome_cases.
  - destruct (nonempty_c_str (tp_doc t)); cbn [fst]; outcome_cases.
  - destruct (has_docstring (doc_attr o));
      [|destruct (doc_settable o); [destruct (doc_attr o)|]];
      cbn [fst]; outcome_cases.
Qed.


End Runtime.

(** * The properties at work on concrete values *)

Lemma from_json_to_json_round_trip_witness :
  json_wf sample_value = true /\ signed_only sample_value = true /\
  exists o, from_json sample_value = OK o
            /\ forall st, to_json sample_repr sample_str sample_digits sample_deps o st = (OK sample_value, st).
Proof.
  split; [reflexivity|]. split; [reflexivity|].
  apply (from_json_to_json_round_trip sample_repr sample_str sample_digits sample_deps sample_value);
    reflexivity.
Defined.

Lemma to_json_bool_before_int_witness :
  to_json sample_repr sample_str sample_digits sample_deps (PyBool true) st0 = (OK (JBool true), st0).
Proof.
  apply (to_json_bool_before_int sample_repr sample_str sample_digits sample_deps (PyBool true) st0);
    reflexivity.
Defined.


Lemma to_json_dict_keys_witness :
  exists fields st',
    to_json sample_repr sample_str sample_digits sample_deps
      (PyDict [(PyInt 42, PyStr (text_of "x")); (PyStr (text_of "k"), PyNone)]) st0
      = (OK (JObject fields), st')
    /\ In "42"%string (map fst fields).
Proof.
  destruct (to_json_dict_keys sample_repr sample_str sample_digits sample_deps
              [(PyInt 42, PyStr (text_of "x")); (PyStr (text_of "k"), PyNone)] st0)
    as [(fields & st' & Henc & Hkeys) _].
  - repeat constructor; simpl; intros; eexists; try eexists; reflexivity.
  - exists fields, st'. split; [exact Henc|].
    apply Hkeys. exists (PyInt 42). split; [simpl; auto|reflexivity].
Defined.

Lemma from_json_unsigned_as_signed_witness :
  from_json (JUInt64 (2 ^ 64 - 1)) = OK (PyInt (to_int64 (2 ^ 64 - 1)))
  /\ to_int64 (2 ^ 64 - 1) = -1.
Proof.
  destruct (from_json_unsigned_as_signed (2 ^ 64 - 1)) as (H1 & H2 & _).
  - unfold int64_max, uint64_max. lia.
  - split; [exact H1|]. rewrite H2. reflexivity.
Defined.

Lemma add_doc_invalid_text_witness :
  vineyard_add_doc fresh_function (PyStr [55296]) = (Err InvalidText, fresh_function).
Proof.
  apply (add_doc_invalid_text fresh_function (PyStr [55296])); reflexivity.
Defined.

(** C4, as stated, fails here: the integer [42] is no text, and the call
    succeeds. *)
Lemma add_doc_accepts_non_text :
  interpretable_as_text (PyInt 42) = false
  /\ vineyard_add_doc fresh_function (PyInt 42)
     = (OK tt, CFunction {| ml_name := "connect";
                            ml_doc := Some "<invalid string>" |}).
Proof. split; reflexivity. Qed.

Lemma add_doc_invalid_string_default_witness :
  exists obj', vineyard_add_doc fresh_function PyNone = (OK tt, obj')
               /\ doc_text obj' = Some invalid_string.
Proof.
  apply (add_doc_invalid_string_default fresh_function PyNone); reflexivity.
Defined.

Lemma add_doc_not_settable_witness :
  vineyard_add_doc (Object {| doc_attr := Some PyNone; doc_settable := false |})
    (PyStr (text_of "hello"))
  = (Err AttributeNotSettable,
     Object {| doc_attr := Some PyNone; doc_settable := false |}).
Proof.
  apply (add_doc_not_settable {| doc_attr := Some PyNone; doc_settable := false |}
           (PyStr (text_of "hello"))); reflexivity.
Defined.

Lemma to_json_sequence_error_witness :
  fst (to_json sample_repr sample_str sample_digits sample_deps
         (PyList ([PyInt 1; PyBytes "f"] ++ PyOther "socket" :: [PyInt 2])) st0)
    = Err (UnsupportedType "to_json not implemented for this type of object: <object>")
  /\ fst (to_json sample_repr sample_str sample_digits sample_deps
            (PyTuple ([PyInt 1; PyBytes "f"] ++ PyOther "socket" :: [PyInt 2])) st0)
    = Err (UnsupportedType "to_json not implemented for this type of object: <object>").
Proof.
  apply (to_json_sequence_error sample_repr sample_str sample_digits sample_deps
           [PyInt 1; PyBytes "f"] [PyInt 2] (PyOther "socket")).
  - repeat constructor; eexists; reflexivity.
  - reflexivity.
Defined.

Lemma to_json_after_from_json_witness :
  exists o,
    from_json (JArray [JUInt64 5; JUInt64 (2 ^ 64 - 1); JObject [("k", JInt64 1)]])
      = OK o
    /\ fst (to_json sample_repr sample_str sample_digits sample_deps o st0)
       = OK (JArray [JInt64 5; JInt64 (-1); JObject [("k", JInt64 1)]]).
Proof.
  apply (to_json_after_from_json sample_repr sample_str sample_digits sample_deps
           (JArray [JUInt64 5; JUInt64 (2 ^ 64 - 1); JObject [("k", JInt64 1)]]) st0).
  reflexivity.
Defined.

Lemma from_json_after_to_json_witness :
  from_json (JObject [("a", JArray [JUInt64 (2 ^ 63); JString "Zg=="])])
  = OK (PyDict [(PyStr (text_of "a"),
                 PyList [PyInt (- 2 ^ 63); PyStr (text_of "Zg==")])]).
Proof.
  apply (from_json_after_to_json sample_repr sample_str sample_digits sample_deps
           (PyDict [(PyStr (text_of "a"), PyTuple [PyInt (2 ^ 63); PyBytes "f"])])
           (JObject [("a", JArray [JUInt64 (2 ^ 63); JString "Zg=="])]) st0);
    reflexivity.
Defined.

Lemma sample_str_valid o s : sample_str o = OK s -> utf8_valid s = true.
Proof. intros [= <-]. reflexivity. Qed.

Lemma to_json_output_decodes_witness :
  json_wf (JObject [("7", JArray [JString "<object>"]); ("None", JInt64 (-3))]) = true
  /\ exists o',
       from_json (JObject [("7", JArray [JString "<object>"]); ("None", JInt64 (-3))])
       = OK o'.
Proof.
  apply (to_json_output_decodes sample_repr sample_str sample_digits sample_deps
           sample_str_valid
           (PyDict [(PyInt 7, PyTuple [PyStr (text_of "<object>")]);
                    (PyNone, PyInt (-3))])
           _ st0).
  reflexivity.
Defined.

Lemma integer_wraps_through_round_trip_witness :
  exists v, fst (to_json sample_repr sample_str sample_digits sample_deps (PyInt (2 ^ 63)) st0) = OK v
            /\ from_json v = OK (PyInt (2 ^ 63 - 2 ^ 64))
            /\ 2 ^ 63 - 2 ^ 64 < 0.
Proof.
  apply (integer_wraps_through_round_trip sample_repr sample_str sample_digits sample_deps (2 ^ 63) st0).
  unfold int64_max, uint64_max. lia.
Defined.

Lemma to_json_dict_last_wins_witness :
  object_get "42" [("42"%string, JBool true); ("x"%string, JNull)] = Some (JBool true)
  /\ NoDup (map fst [("42"%string, JBool true); ("x"%string, JNull)]).
Proof.
  apply (to_json_dict_last_wins sample_repr sample_str sample_digits sample_deps
           [(PyInt 42, PyNone)] [(PyStr (text_of "x"), PyNone)]
           (PyStr (text_of "42")) (PyBool true) "42" (JBool true)
           [("42"%string, JBool true); ("x"%string, JNull)] st0).
  - reflexivity.
  - reflexivity.
  - repeat constructor. intros H. vm_compute in H. discriminate H.
  - reflexivity.
Defined.

Lemma add_doc_documented_is_final_witness :
  add_docs (CFunction {| ml_name := "connect"; ml_doc := Some "hello"%string |})
    [PyStr [55296]; PyInt 3; PyBytes "x"]
  = ([Err InvalidText;
      Err (AlreadyDocumented "function" (Some "connect"%string));
      Err (AlreadyDocumented "function" (Some "connect"%string))],
     CFunction {| ml_name := "connect"; ml_doc := Some "hello"%string |}).
Proof.
  apply (add_doc_documented_is_final
           (CFunction {| ml_name := "connect"; ml_doc := Some "hello"%string |})
           [PyStr [55296]; PyInt 3; PyBytes "x"]).
  reflexivity.
Defined.

Lemma add_doc_writes_c_string_witness :
  exists obj',
    vineyard_add_doc fresh_function (PyBytes (String "a" (String NUL "b")))
      = (OK tt, obj')
    /\ doc_text obj' = Some "a"%string
    /\ documented obj' = true.
Proof.
  apply (add_doc_writes_c_string fresh_function
           (PyBytes (String "a" (String NUL "b"))) (String "a" (String NUL "b"))).
  - reflexivity.
  - reflexivity.
  - left. reflexivity.
Defined.



(** * Runs on concrete values *)

Example utf8_run :
  utf8_decode (bytes_of [195; 169; 226; 130; 172; 240; 159; 152; 128])
    = Some [233; 8364; 128512]
  /\ utf8_encode [233; 8364; 128512]
    = Some (bytes_of [195; 169; 226; 130; 172; 240; 159; 152; 128])
  /\ utf8_decode (bytes_of [237; 160; 128]) = None
  /\ utf8_encode [55296] = None.
Proof. repeat split; reflexivity. Qed.

Example b64encode_run :
  b64encode "foobar" = "Zm9vYmFy"%string /\ b64encode "fo" = "Zm8="%string
  /\ b64encode "f" = "Zg=="%string /\ b64encode "" = ""%string.
Proof. repeat split; reflexivity. Qed.

Example from_json_run :
  from_json (JObject [("a", JArray [JInt64 1; JUInt64 (2 ^ 63); JNull]);
                      ("b", JString "hi")])
  = OK (PyDict [(PyStr [97], PyList [PyInt 1; PyInt (- 2 ^ 63); PyNone]);
                (PyStr [98], PyStr [104; 105])]).
Proof. reflexivity. Qed.

(** The keys [42] and ["42"] meet in one field, which keeps the place of
    the first and the value of the last. *)
Example to_json_run :
  to_json sample_repr sample_str sample_digits sample_deps
    (PyDict [(PyInt 42, PyStr (text_of "x")); (PyStr (text_of "42"), PyNone);
             (PyBool true, PyList [PyFloat 3; PyTuple []])]) st0
  = (OK (JObject [("42", JNull); ("True", JArray [JFloat64 3; JArray []])]), st0).
Proof. reflexivity. Qed.

Example to_json_nested_failure_run :
  to_json sample_repr sample_str sample_digits sample_deps
    (PyList [PyBytes "f"; PyOther "socket"; PyInt 1]) st0
  = (Err (UnsupportedType
            "to_json not implemented for this type of object: <object>"),
     {| sys_modules := ["base64"; "re"; "struct"; "binascii"]%string |}).
Proof. reflexivity. Qed.

(** Under the lowest limit that the interpreter takes, 640 digits, the
    numeral of [10^640] is one digit too long: neither the message of the
    integer branch nor the key of a mapping gets built. Without a limit the
    key is the numeral. *)
Example to_json_long_numeral_run :
  to_json sample_repr sample_str 640 sample_deps (PyInt (10 ^ 640)) st0
  = (Err ValueError, st0)
  /\ to_json sample_repr sample_str 640 sample_deps
       (PyDict [(PyInt (10 ^ 640), PyNone)]) st0
     = (Err ValueError, st0)
  /\ to_json sample_repr sample_str 0 sample_deps
       (PyDict [(PyInt (10 ^ 640), PyNone)]) st0
     = (OK (JObject [(decimal (10 ^ 640), JNull)]), st0).
Proof. split; [|split]; vm_compute; reflexivity. Qed.

Example add_docs_run :
  add_docs (Object {| doc_attr := None; doc_settable := true |})
    [PyInt 3; PyStr (text_of "w"); PyStr [55296]; PyStr (text_of "v")]
  = ([Err SystemError; OK tt; Err InvalidText;
      Err (AlreadyDocumented "Object" None)],
     Object {| doc_attr := Some (PyStr (text_of "w")); doc_settable := true |}).
Proof. reflexivity. Qed.
